(** * Frequency-curve engine of tstv-app: a shallow embedding

    This development embeds [AnalysisService.compute_frequency_curve]
    (app/services/analysis_service.py) together with the helpers it calls
    ([_fit_distribution_mom], [_bootstrap_iteration_worker], [Weibull],
    [_convert_to_python_type], [extract_params], [validate_agg_func]) and
    proves the properties the specification states about it.

    Numbers.  A NumPy/Python double is modelled as an extended rational
    ([Fin q], [PInf], [NInf], [NaN]): arithmetic is exact on finite values,
    every finite result is kept in lowest terms, a result beyond the binary64
    range becomes an infinity, and the special values follow IEEE 754.
    Rounding to 53 bits and signed zeros are not modelled.

    Libraries.  NumPy's transcendental functions, SciPy's fit/ppf/skew/interp1d,
    the random generator and pandas' groupby are operations of the class
    [Numerics]; every theorem holds for every instance, and [demo_numerics]
    is an executable one. *)

From Stdlib Require Import String ZArith QArith Qabs Qround Bool List Lia Lqa.
From Stdlib Require Import Sorted Permutation.
Import ListNotations.

Set Warnings "-register-all".
Local Open Scope Z_scope.

(** ** Doubles *)

Inductive float : Type :=
| Fin (q : Q)
| PInf
| NInf
| NaN.

(** Largest finite binary64 value, (2 - 2^-52) * 2^1023. *)
Definition float_max : Q := inject_Z (2 ^ 1024 - 2 ^ 971).

Definition Qltb (x y : Q) : bool := negb (Qle_bool y x).

(** A real result brought back into the doubles: overflow gives an infinity. *)
Definition rnd (q : Q) : float :=
  if Qltb float_max q then PInf
  else if Qltb q (- float_max) then NInf
  else Fin (Qred q).

(** An integer as a double.  The integers of the engine are counts, indices
    and small constants, far inside the binary64 range. *)
Definition of_Z (z : Z) : float := Fin (inject_Z z).
Definition of_nat (n : nat) : float := of_Z (Z.of_nat n).

Definition isnan (x : float) : bool :=
  match x with NaN => true | _ => false end.

Definition isfinite (x : float) : bool :=
  match x with Fin _ => true | _ => false end.

Definition isinf (x : float) : bool :=
  match x with PInf | NInf => true | _ => false end.

(** Sign of a non-NaN value ([Eq] for zero). *)
Definition fsign (x : float) : comparison :=
  match x with
  | Fin q => Qcompare q 0
  | PInf => Gt
  | NInf => Lt
  | NaN => Eq
  end.

Definition inf_of_sign (s : comparison) : float :=
  match s with Gt => PInf | Lt => NInf | Eq => NaN end.

Definition sign_mul (s t : comparison) : comparison :=
  match s, t with
  | Eq, _ | _, Eq => Eq
  | Gt, Gt | Lt, Lt => Gt
  | _, _ => Lt
  end.

Definition fneg (x : float) : float :=
  match x with
  | Fin q => rnd (- q)
  | PInf => NInf
  | NInf => PInf
  | NaN => NaN
  end.

Definition fadd (x y : float) : float :=
  match x, y with
  | NaN, _ | _, NaN => NaN
  | Fin a, Fin b => rnd (a + b)
  | PInf, NInf | NInf, PInf => NaN
  | PInf, _ | _, PInf => PInf
  | NInf, _ | _, NInf => NInf
  end.

Definition fsub (x y : float) : float := fadd x (fneg y).

Definition fmul (x y : float) : float :=
  match x, y with
  | NaN, _ | _, NaN => NaN
  | Fin a, Fin b => rnd (a * b)
  | _, _ => inf_of_sign (sign_mul (fsign x) (fsign y))
  end.

(** NumPy division: a zero divisor gives an infinity or NaN, never an error. *)
Definition fdiv (x y : float) : float :=
  match x, y with
  | NaN, _ | _, NaN => NaN
  | Fin a, Fin b =>
      if Qeq_bool b 0 then inf_of_sign (Qcompare a 0) else rnd (a / b)
  | Fin _, _ => Fin 0
  | _, Fin b => inf_of_sign (sign_mul (fsign x) (if Qltb b 0 then Lt else Gt))
  | _, _ => NaN
  end.

Definition fabs (x : float) : float :=
  match x with
  | Fin q => rnd (Qabs q)
  | PInf | NInf => PInf
  | NaN => NaN
  end.

(** Comparisons: every comparison with NaN is false. *)
Definition fltb (x y : float) : bool :=
  match x, y with
  | NaN, _ | _, NaN => false
  | Fin a, Fin b => Qltb a b
  | NInf, NInf | PInf, _ | _, NInf => false
  | _, _ => true
  end.

Definition fleb (x y : float) : bool :=
  match x, y with
  | NaN, _ | _, NaN => false
  | Fin a, Fin b => Qle_bool a b
  | NInf, _ | _, PInf => true
  | _, _ => false
  end.

Definition fgtb (x y : float) : bool := fltb y x.
Definition fgeb (x y : float) : bool := fleb y x.

Definition feqb (x y : float) : bool :=
  match x, y with
  | Fin a, Fin b => Qeq_bool a b
  | PInf, PInf | NInf, NInf => true
  | _, _ => false
  end.

Definition fneb (x y : float) : bool := negb (feqb x y).

(** [x ** 2] on a NumPy double. *)
Definition fsquare (x : float) : float := fmul x x.
Definition fcube (x : float) : float := fmul (fmul x x) x.

(** [np.clip(x, lo, hi)]: NaN stays NaN. *)
Definition np_clip (lo hi x : float) : float :=
  match x with
  | NaN => NaN
  | _ => if fltb x lo then lo else if fltb hi x then hi else x
  end.

(** Numeric equality of two doubles (the representation of a rational may
    differ). *)
Definition feq (x y : float) : Prop :=
  match x, y with
  | Fin a, Fin b => a == b
  | PInf, PInf | NInf, NInf | NaN, NaN => True
  | _, _ => False
  end.

(** ** Python values

    The engine mixes NumPy scalars with native Python numbers, and the last
    step of the computation is about telling them apart, so the values that
    reach the returned dictionary keep their run-time type. *)

Inductive pyval : Type :=
| PyNone
| PyInt (z : Z)
| PyFloat (x : float)
| PyStr (s : string)
| NpInt (z : Z)              (* np.integer: np.int64, np.int32, ... *)
| NpFloat (x : float)        (* np.floating: np.float64, np.float32, ... *)
| NpArray (l : list pyval)   (* np.ndarray *)
| PyList (l : list pyval)
| PyTuple (l : list pyval)
| PyDict (d : list (string * pyval)).

(** [AnalysisService._convert_to_python_type]. *)
Fixpoint _convert_to_python_type (value : pyval) : pyval :=
  match value with
  | PyNone => PyNone
  | NpInt z => PyInt z
  | NpFloat x => if isnan x || isinf x then PyNone else PyFloat x
  | NpArray l => PyList (map _convert_to_python_type l)
  | PyList l => PyList (map _convert_to_python_type l)
  | PyTuple l => PyList (map _convert_to_python_type l)
  | PyDict d => PyDict (map (fun kv => (fst kv, _convert_to_python_type (snd kv))) d)
  | PyInt z => PyInt z
  | PyFloat x => if isnan x || isinf x then PyNone else PyFloat x
  | PyStr s => PyStr s
  end.

(** The number a numeric Python value stands for ([float(v)]). *)
Definition to_float (v : pyval) : float :=
  match v with
  | PyInt z | NpInt z => of_Z z
  | PyFloat x | NpFloat x => x
  | _ => NaN
  end.

(** A native Python number that is finite, or [None]. *)
Definition native_finite_or_none (v : pyval) : Prop :=
  match v with
  | PyNone | PyInt _ => True
  | PyFloat x => isfinite x = true
  | _ => False
  end.

(** Python's [round(x, ndigits)] on a float: to the nearest multiple of
    [10^-ndigits], ties to even; infinities and NaN are returned as they are. *)
Definition round_half_even (q : Q) : Z :=
  let f := Qfloor q in
  let r := (q - inject_Z f)%Q in
  if Qltb r (1 # 2) then f
  else if Qltb (1 # 2) r then f + 1
  else if Z.even f then f else f + 1.

Definition py_round (x : float) (ndigits : Z) : float :=
  match x with
  | Fin q =>
      let s := inject_Z (10 ^ ndigits) in
      rnd (inject_Z (round_half_even (q * s)) / s)
  | _ => x
  end.

(** ** The numerical libraries *)

(** The SciPy distribution objects the registry refers to. *)
Inductive scipy_dist : Type :=
| gumbel_r | genextreme | genpareto | expon | lognorm | logistic | gamma | pearson3.

Class Numerics : Type := {
  np_sqrt : float -> float;
  np_log : float -> float;
  np_log10 : float -> float;
  np_exp : float -> float;
  (** [np.power(10.0, x)] *)
  np_power10 : float -> float;
  (** [dist.fit(data)]: the fitted tuple, or [None] when the call raises. *)
  scipy_fit : scipy_dist -> list float -> option (list pyval);
  (** [dist.ppf(q, *params)] at one probability. *)
  scipy_ppf : scipy_dist -> list float -> float -> float;
  (** [scipy.stats.skew(data, bias=False)] *)
  scipy_skew : list float -> float;
  (** [np.random.RandomState(seed).choice(data, size=n, replace=True)] *)
  rng_choice : Z -> list float -> nat -> list float;
  (** [interp1d(x, y, kind='linear', bounds_error=False,
      fill_value='extrapolate')] applied at one abscissa. *)
  interp1d : list float -> list float -> float -> float;
  (** [df.groupby('Year')[col].agg(agg_func)] coerced to numeric values. *)
  groupby_agg : string -> list (Z * float) -> list float;
  (** IEEE 754: the square root of a finite non-negative double is finite
      and non-negative, and the square root of zero is zero. *)
  np_sqrt_finite : forall q, (0 <= q)%Q -> exists r, np_sqrt (Fin q) = Fin r /\ (0 <= r)%Q;
  np_sqrt_zero : forall q, (q == 0)%Q -> np_sqrt (Fin q) = Fin 0;
  (** SciPy: a fitted tuple ends with the location and the scale. *)
  scipy_fit_arity : forall d data params,
    scipy_fit d data = Some params -> (2 <= length params)%nat
}.

Declare Scope float_scope.
Delimit Scope float_scope with F.
Bind Scope float_scope with float.
Notation "x + y" := (fadd x y) : float_scope.
Notation "x - y" := (fsub x y) : float_scope.
Notation "x * y" := (fmul x y) : float_scope.
Notation "x / y" := (fdiv x y) : float_scope.
Notation "- x" := (fneg x) : float_scope.
Notation "x <? y" := (fltb x y) : float_scope.
Notation "x <=? y" := (fleb x y) : float_scope.
Notation "x >? y" := (fgtb x y) : float_scope.
Notation "x >=? y" := (fgeb x y) : float_scope.

(** ** Array helpers *)

(** Boolean indexing [a[mask]]. *)
Fixpoint mask_select {A : Type} (l : list A) (mask : list bool) : list A :=
  match l, mask with
  | x :: l', b :: mask' =>
      if b then x :: mask_select l' mask' else mask_select l' mask'
  | _, _ => []
  end.

(** [np.sum(mask)] for a boolean array. *)
Definition count_true (mask : list bool) : nat := length (filter (fun b => b) mask).

Definition np_sum (l : list float) : float := fold_left fadd l (Fin 0).

(** [np.mean(a)] *)
Definition np_mean (l : list float) : float := (np_sum l / of_nat (length l))%F.

(** [np.max(a)] and [np.min(a)]; [None] stands for the ValueError NumPy
    raises on an empty array. *)
Definition np_max (l : list float) : option float :=
  match l with
  | [] => None
  | x :: l' => Some (fold_left (fun m y => if isnan m then m else if isnan y then y
                                           else if fltb m y then y else m) l' x)
  end.

Definition np_min (l : list float) : option float :=
  match l with
  | [] => None
  | x :: l' => Some (fold_left (fun m y => if isnan m then m else if isnan y then y
                                           else if fltb y m then y else m) l' x)
  end.

(** [np.diff(a)] *)
Fixpoint np_diff (l : list float) : list float :=
  match l with
  | x :: (y :: _) as t => (y - x)%F :: np_diff t
  | _ => []
  end.

(** A stable insertion sort driven by a strict comparison, as Python's
    [sorted] and [list.sort] order a list by [<] on the keys. *)
Fixpoint insert_by {A : Type} (lt : A -> A -> bool) (x : A) (l : list A) : list A :=
  match l with
  | [] => [x]
  | y :: l' => if lt y x then y :: insert_by lt x l' else x :: y :: l'
  end.

Fixpoint sort_by {A : Type} (lt : A -> A -> bool) (l : list A) : list A :=
  match l with
  | [] => []
  | x :: l' => insert_by lt x (sort_by lt l')
  end.

(** [np.sort(a)] (and [a[np.argsort(a)]]): ascending, NaN placed last. *)
Definition np_sort (l : list float) : list float :=
  sort_by fltb (filter (fun x => negb (isnan x)) l) ++ filter isnan l.

(** [sorted(a)] on floats and [sorted(a, reverse=True)]. *)
Definition py_sorted (l : list float) : list float := sort_by fltb l.
Definition py_sorted_reverse (l : list float) : list float := sort_by fgtb l.

(** [sorted(set(l))] on natural numbers. *)
Definition sorted_set_nat (l : list nat) : list nat := sort_by Nat.ltb (nodup Nat.eq_dec l).

(** [a[::step]] *)
Fixpoint every_nth_from {A : Type} (step skip : nat) (l : list A) : list A :=
  match l with
  | [] => []
  | x :: l' =>
      match skip with
      | O => x :: every_nth_from step (Nat.pred step) l'
      | S k => every_nth_from step k l'
      end
  end.

Definition slice_step {A : Type} (step : nat) (l : list A) : list A :=
  every_nth_from step 0 l.

(** [np.where(mask)[0]] *)
Definition np_where (mask : list bool) : list nat :=
  map fst (filter snd (combine (seq 0 (length mask)) mask)).

(** [[l[i] for i in idx]]; [None] stands for an IndexError. *)
Fixpoint select_indices {A : Type} (idx : list nat) (l : list A) : option (list A) :=
  match idx with
  | [] => Some []
  | i :: idx' =>
      match nth_error l i, select_indices idx' l with
      | Some x, Some r => Some (x :: r)
      | _, _ => None
      end
  end.

(** [np.arange(start, stop, step)] for a positive step; [None] when the
    length cannot be computed (a bound that is not finite). *)
Definition np_arange (start stop step : float) : option (list float) :=
  match start, stop, step with
  | Fin a, Fin b, Fin s =>
      if Qltb 0 s then
        let n := Z.to_nat (Qceiling ((b - a) / s)) in
        Some (map (fun i => (start + of_nat i * step)%F) (seq 0 n))
      else None
  | _, _, _ => None
  end.

(** ** helpers.py *)

(** [extract_params]: the fitted tuple as a dictionary with the keys
    [shape], [loc], [scale]; [None] is the IndexError of a tuple too short
    to hold a location and a scale. *)
Record Parameters : Type := {
  shape : pyval;
  loc : pyval;
  scale : pyval
}.

Definition extract_params (params : list pyval) : option Parameters :=
  match params with
  | [a; b] => Some {| shape := PyNone; loc := a; scale := b |}
  | [a; b; c] => Some {| shape := a; loc := b; scale := c |}
  | _ =>
      let n := length params in
      if (n <? 2)%nat then None                       (* IndexError *)
      else Some {| shape := PyTuple (firstn (n - 2) params);
                   loc := nth (n - 2) params PyNone;
                   scale := nth (n - 1) params PyNone |}
  end.

(** [validate_agg_func]: [true] when the call returns, [false] when it
    raises HTTPException(400). *)
Definition validate_agg_func (agg_func : string) : bool :=
  existsb (String.eqb agg_func) ["max"; "min"; "sum"; "mean"]%string.

(** ** The distribution registry *)

Record DistributionBase : Type := {
  name : string;
  dist : scipy_dist
}.

(** The module-level dictionary [distributions]; the [fit] and [ppf] entries
    of a [DistributionBase] are the methods of its SciPy object. *)
Definition distributions_table : list (string * DistributionBase) :=
  [ ("gumbel", {| name := "Gumbel"; dist := gumbel_r |});
    ("genextreme", {| name := "Generalized Extreme Value"; dist := genextreme |});
    ("genpareto", {| name := "GPD"; dist := genpareto |});
    ("expon", {| name := "Exponential"; dist := expon |});
    ("lognorm", {| name := "Lognormal"; dist := lognorm |});
    ("logistic", {| name := "Logistic"; dist := logistic |});
    ("gamma", {| name := "Gamma"; dist := gamma |});
    ("pearson3", {| name := "Pearson3"; dist := pearson3 |});
    ("frechet", {| name := "Frechet"; dist := genextreme |}) ]%string.

Fixpoint dict_get {A : Type} (key : string) (d : list (string * A)) : option A :=
  match d with
  | [] => None
  | (k, v) :: d' => if String.eqb key k then Some v else dict_get key d'
  end.

Definition distributions (distribution_name : string) : option DistributionBase :=
  dict_get distribution_name distributions_table.

(** [dist_map] of the bootstrap worker. *)
Definition dist_map (distribution_name : string) : option scipy_dist :=
  dict_get distribution_name
    [ ("gumbel", gumbel_r); ("lognorm", lognorm); ("gamma", gamma);
      ("logistic", logistic); ("expon", expon); ("genextreme", genextreme);
      ("genpareto", genpareto); ("frechet", genextreme);
      ("pearson3", pearson3) ]%string.

(** ** Exceptions *)

(** A Python call that may raise. *)
Inductive exn (A : Type) : Type :=
| Raised
| Returned (a : A).
Arguments Raised {A}.
Arguments Returned {A} a.

Definition exn_bind {A B : Type} (e : exn A) (k : A -> exn B) : exn B :=
  match e with
  | Raised => Raised
  | Returned a => k a
  end.

Notation "x <- e ;; k" := (exn_bind e (fun x => k))
  (at level 61, e at next level, right associativity).

(** [x ** 2] on a Python float raises OverflowError where NumPy would
    return an infinity. *)
Definition py_pow2 (x : float) : exn float :=
  match x with
  | Fin q => match rnd (q * q) with
             | Fin r => Returned (Fin r)
             | _ => Raised
             end
  | NaN => Returned NaN
  | _ => Returned PInf
  end.

(** [x / y] on Python floats raises ZeroDivisionError on a zero divisor. *)
Definition py_div (x y : float) : exn float :=
  match y with
  | Fin b => if Qeq_bool b 0 then Raised else Returned (x / y)%F
  | _ => Returned (x / y)%F
  end.

Definition option_bind {A B : Type} (o : option A) (k : A -> option B) : option B :=
  match o with
  | None => None
  | Some a => k a
  end.

Fixpoint option_map_all {A B : Type} (f : A -> option B) (l : list A) : option (list B) :=
  match l with
  | [] => Some []
  | x :: l' =>
      match f x, option_map_all f l' with
      | Some y, Some r => Some (y :: r)
      | _, _ => None
      end
  end.

(** ** The returned structure *)

Module CurvePoint.
Record t : Type := {
  P_percent : pyval;
  Q : pyval
}.
End CurvePoint.

Record ConfidenceIntervals : Type := {
  lower : list CurvePoint.t;
  upper : list CurvePoint.t
}.

Module Statistics.
Record t : Type := {
  mean : pyval;
  std : pyval;
  cv : pyval;
  cs : pyval;
  n : pyval
}.
End Statistics.

(** The messages appended to [quality_warnings], by the condition that
    emits them; [ImplausibleFit] is the one that opens with the
    serious-warning banner. *)
Inductive QualityWarning : Type :=
| HighCv (cv : float)
| StrongSkew (cs : float)
| SmallSample (n : nat)
| ClampedNegative (num_clamped : nat)
| ImplausibleFit (distribution_name : string) (Q_1pct Q_max_val : float).


Record FrequencyCurve : Type := {
  theoretical_curve : list CurvePoint.t;
  empirical_points : list CurvePoint.t;
  confidence_intervals : option ConfidenceIntervals;
  statistics : Statistics.t;
  parameters : Parameters;
  distribution : string;
  quality_warnings : list QualityWarning
}.

(** The [detail] of an HTTPException, by the [raise] that produces it. *)
Inductive ErrorDetail : Type :=
| InvalidAggregationFunction   (* validate_agg_func *)
| UnsupportedDistribution      (* distribution_name not in distributions *)
| InvalidMethod                (* method not in valid_methods *)
| MissingColumn                (* main_column not in df.columns *)
| DataProcessingError          (* the except around the aggregation block *)
| EmptyAfterFiltering          (* Qmax_filtered.size == 0 *)
| InsufficientData (size : nat)  (* Qmax_filtered.size < 3 *)
| DegenerateFit                (* the except around the fitting block *)
| InternalError.               (* the outer except Exception *)

Inductive Outcome : Type :=
| HTTPException (status_code : Z) (detail : ErrorDetail)
| EmptyCurves      (* {"theoretical_curve": [], "empirical_points": []} *)
| Result (r : FrequencyCurve).

(** ** Inputs *)

(** The frame held by [DataService]: its column names and, row by row, the
    [Year] and the value of the main column after [pd.to_numeric]. *)
Record DataFrame : Type := {
  columns : list string;
  rows : list (Z * float)
}.

Record DataService : Type := {
  data : option DataFrame;
  main_column : string
}.

(** How the process pool behaved: the futures completed in some order
    ([order k] lists the [k] submitted futures as [as_completed] yields
    them), or the pool could not be used and the iterations ran in a loop. *)
Inductive PoolRun : Type :=
| PoolCompleted (order : nat -> list nat)
| PoolFailed.

(** What the call reads from its process: the integers the global NumPy
    generator hands out as bootstrap seeds, and the behaviour of the pool. *)
Record Environment : Type := {
  random_ints : list Z;
  pool : PoolRun
}.

Definition completion_order_ok (run : PoolRun) : Prop :=
  match run with
  | PoolCompleted order => forall k, Permutation (order k) (seq 0 k)
  | PoolFailed => True
  end.

Section Engine.

Context {K : Numerics}.

Local Open Scope string_scope.

(** ** Sample statistics *)

(** [np.var(a, ddof=1)] and [np.std(a, ddof=1)]. *)
Definition np_var_ddof1 (a : list float) : float :=
  let arrmean := np_mean a in
  (np_sum (map (fun x => fsquare (x - arrmean)) a)
   / of_Z (Z.of_nat (length a) - 1))%F.

Definition np_std_ddof1 (a : list float) : float := np_sqrt (np_var_ddof1 a).

Definition np_pi : float := Fin 3.141592653589793.

(** [Weibull]: the plotting positions [i / (n + 1) * 100]. *)
Definition Weibull (data : list float) : list float :=
  let n := length data in
  map (fun i => (of_nat i / of_nat (n + 1) * Fin 100)%F) (seq 1 n).

(** ** [_fit_distribution_mom]

    [Raised] is an exception leaving the method, [Returned None] the
    fallback signal, [Returned (Some params)] a fitted tuple. *)
Definition _fit_distribution_mom (distribution_name : string) (Qmax : list float)
  : exn (option (list pyval)) :=
  let mean_Q := np_mean Qmax in
  let std_Q := np_std_ddof1 Qmax in
  let var_Q := np_var_ddof1 Qmax in
  if distribution_name =? "gumbel" then
    let scale := (std_Q * np_sqrt (Fin 6) / np_pi)%F in
    let loc := (mean_Q - Fin 0.57722 * scale)%F in
    Returned (Some [NpFloat loc; NpFloat scale])
  else if distribution_name =? "lognorm" then
    mean_sq <- py_pow2 mean_Q ;;
    cv_squared <- py_div var_Q mean_sq ;;
    if (cv_squared <=? Fin 0)%F then Returned None
    else
      let s := np_sqrt (np_log (Fin 1 + cv_squared)%F) in
      let mu := (np_log mean_Q - fsquare s / Fin 2)%F in
      Returned (Some [NpFloat s; PyInt 0; NpFloat (np_exp mu)])
  else if distribution_name =? "gamma" then
    if (mean_Q <=? Fin 0)%F || (var_Q <=? Fin 0)%F then Returned None
    else
      mean_sq <- py_pow2 mean_Q ;;
      shape <- py_div mean_sq var_Q ;;
      scale <- py_div var_Q mean_Q ;;
      Returned (Some [PyFloat shape; PyInt 0; PyFloat scale])
  else if distribution_name =? "pearson3" then
    let n := length Qmax in
    if (n <? 3)%nat then Returned None
    else
      let skew :=
        if (std_Q >? Fin 0)%F
        then (np_sum (map (fun x => fcube ((x - mean_Q) / std_Q)%F) Qmax) / of_nat n)%F
        else Fin 0 in
      if (fabs skew <? Fin 0.000001)%F then Returned None
      else
        let shape := if (fabs skew >? Fin 0.000001)%F then Some (Fin 2 / skew)%F else None in
        match shape with
        | None => Returned None
        | Some shape =>
            if (fabs shape >? Fin 100)%F then Returned None
            else Returned None   (* "Fallback to MLE" *)
        end
  else if distribution_name =? "logistic" then
    let scale := (std_Q * np_sqrt (Fin 3) / np_pi)%F in
    let loc := mean_Q in
    Returned (Some [PyFloat loc; NpFloat scale])
  else if distribution_name =? "expon" then
    if (mean_Q <=? Fin 0)%F then Returned None
    else
      let scale := mean_Q in
      Returned (Some [PyInt 0; PyFloat scale])
  else Returned None.

(** ** The fitting block of [compute_frequency_curve] (lines 451-484)

    [None] is the HTTPException(400) raised by the [except] of the block. *)
Definition use_mom (distribution_name method : string) : bool :=
  if method =? "auto" then distribution_name =? "gumbel"
  else if method =? "mom" then true
  else false.

Definition params_finite (params : list pyval) : bool :=
  forallb (fun p => isfinite (to_float p)) params.

Definition validate_params (params : list pyval) : option (list pyval) :=
  match params with
  | [] => None                              (* len(params) == 0 *)
  | _ => if params_finite params then Some params else None
  end.

Definition fit_parameters (d : DistributionBase) (distribution_name method : string)
    (Qmax : list float) : option (list pyval) :=
  if use_mom distribution_name method then
    match _fit_distribution_mom distribution_name Qmax with
    | Raised => None
    | Returned (Some params) => validate_params params
    | Returned None =>
        (* "MOM không khả thi ... fallback to MLE" *)
        option_bind (scipy_fit (dist d) Qmax) validate_params
    end
  else option_bind (scipy_fit (dist d) Qmax) validate_params.

(** ** Curve positions (lines 496-593) *)

Definition min_p : float := Fin 0.01.
Definition max_p : float := Fin 99.99.
Definition transition_start : float := Fin 5.
Definition transition_end : float := Fin 25.
Definition transition_start_pos : float := Fin 0.3.
Definition transition_end_pos : float := Fin 0.6.

(** One pass of the Newton loop on the Hermite blend, for one point. *)
Definition newton_step (m0 m1 t s : float) : float :=
  let s2 := (s * s)%F in
  let s3 := (s2 * s)%F in
  let h := ((s3 - Fin 2 * s2 + s) * m0 + (Fin (-2) * s3 + Fin 3 * s2)
            + (s3 - s2) * m1)%F in
  let dh := ((Fin 3 * s2 - Fin 4 * s + Fin 1) * m0 + (Fin (-6) * s2 + Fin 6 * s)
             + (Fin 3 * s2 - Fin 2 * s) * m1)%F in
  let f := (h - t)%F in
  let s' := if (fabs dh >? Fin 0.0000000001)%F then (s - f / dh)%F else s in
  np_clip (Fin 0) (Fin 1) s'.

(** [inverse_mixed_scale] at one display position. *)
Definition inverse_mixed_scale (x : float) : float :=
  let x_clamped := np_clip (Fin 0) (Fin 1) x in
  let log_min := np_log10 min_p in
  let log_max := np_log10 transition_start in
  let log_derivative :=
    (transition_start_pos / ((transition_start * np_log (Fin 10)) * (log_max - log_min)))%F in
  let linear_derivative := ((Fin 1 - transition_end_pos) / (max_p - transition_end))%F in
  let transition_range := (transition_end - transition_start)%F in
  let m0 := (log_derivative * transition_range / (transition_end_pos - transition_start_pos))%F in
  let m1 := (linear_derivative * transition_range / (transition_end_pos - transition_start_pos))%F in
  let mask_log := (x_clamped <=? transition_start_pos)%F in
  let mask_linear := (x_clamped >=? transition_end_pos)%F in
  let mask_transition :=
    (x_clamped >? transition_start_pos)%F && (x_clamped <? transition_end_pos)%F in
  if mask_transition then
    let t := ((x_clamped - transition_start_pos) / (transition_end_pos - transition_start_pos))%F in
    let t := np_clip (Fin 0) (Fin 1) t in
    let s := Nat.iter 15 (newton_step m0 m1 t) t in
    (transition_start + s * (transition_end - transition_start))%F
  else if mask_linear then
    let t := ((x_clamped - transition_end_pos) / (Fin 1 - transition_end_pos))%F in
    (transition_end + t * (max_p - transition_end))%F
  else if mask_log then
    let t := (x_clamped / transition_start_pos)%F in
    let log_p := (log_min + t * (log_max - log_min))%F in
    np_power10 log_p
  else Fin 0.                                  (* np.zeros_like *)

Definition num_points : nat := 600.

(** [np.linspace(0.0, 1.0, num=num_points)] *)
Definition mixed_scale_positions : list float :=
  map (fun i => (of_nat i / of_nat (num_points - 1))%F) (seq 0 num_points).

(** [unique_mask]: the first position, and every position whose distance to
    its predecessor exceeds 1e-6. *)
Definition unique_mask (p : list float) : list bool :=
  true :: map (fun d => (d >? Fin 0.000001)%F) (np_diff p).

Definition p_percent_sampled : list float :=
  let p := map inverse_mixed_scale mixed_scale_positions in
  let p := map (np_clip min_p max_p) p in
  let p := np_sort p in
  mask_select p (unique_mask p).

(** ** Theoretical quantiles (lines 595-673) *)

Definition euler_gamma : float := Fin 0.57722.

(** [dist.ppf(1 - p, *params)] *)
Definition ppf_exceedance (d : DistributionBase) (params : list pyval) (p_value : float) : float :=
  scipy_ppf (dist d) (map to_float params) (Fin 1 - p_value)%F.

(** The direct Gumbel formula [Q = mean + std * K] at one probability. *)
Definition gumbel_direct (mean_Q std_Q p_value : float) : float :=
  if (p_value >? Fin 0)%F && (p_value <? Fin 1)%F then
    let y := (- np_log (- np_log (Fin 1 - p_value)))%F in
    let K_value := ((y - euler_gamma) * np_sqrt (Fin 6) / np_pi)%F in
    (mean_Q + std_Q * K_value)%F
  else NaN.

Definition use_direct_formula (params : list pyval) (mean_Q std_Q : float) : bool :=
  match params with
  | [loc_fitted; scale_fitted] =>
      let std_from_params := (to_float scale_fitted * np_pi / np_sqrt (Fin 6))%F in
      let mean_from_params := (to_float loc_fitted + to_float scale_fitted * euler_gamma)%F in
      (fabs (mean_from_params - mean_Q) <? Fin 0.000001)%F
      && (fabs (std_from_params - std_Q) <? Fin 0.000001)%F
  | _ => false
  end.

(** Drop the positions of an invalid quantile when there is one. *)
Definition keep_valid (valid_mask : list bool) (p_percent_fixed Q_theoretical : list float)
  : list float * list float :=
  if forallb (fun b => b) valid_mask then (p_percent_fixed, Q_theoretical)
  else (mask_select p_percent_fixed valid_mask, mask_select Q_theoretical valid_mask).

(** The pair ([p_percent_fixed], [Q_theoretical]) as it stands at line 675. *)
Definition theoretical_quantiles (distribution_name : string) (d : DistributionBase)
    (params : list pyval) (mean_Q std_Q : float) (p_percent_fixed : list float)
  : list float * list float :=
  let p_values := map (fun p => (p / Fin 100)%F) p_percent_fixed in
  if distribution_name =? "gumbel" then
    if use_direct_formula params mean_Q std_Q then
      (p_percent_fixed, map (gumbel_direct mean_Q std_Q) p_values)
    else
      let Q_theoretical := map (ppf_exceedance d params) p_values in
      let valid_mask := map (fun q => isfinite q && (q >? Fin 0)%F) Q_theoretical in
      keep_valid valid_mask p_percent_fixed Q_theoretical
  else
    let Q_theoretical := map (ppf_exceedance d params) p_values in
    let valid_mask :=
      map (fun q => isfinite q && (q >? Fin 0)%F && (q <? Fin 1000000000000)%F) Q_theoretical in
    keep_valid valid_mask p_percent_fixed Q_theoretical.

(** ** The curve loop (lines 684-701) *)

Definition curve_point (p q : float) : CurvePoint.t :=
  let q_clamped := if (q >? Fin 0)%F then NpFloat q else PyInt 0 in   (* max(0, q) *)
  {| CurvePoint.P_percent := _convert_to_python_type (NpFloat p);
     CurvePoint.Q := _convert_to_python_type q_clamped |}.

(** The points appended by the loop, in order, and [num_clamped]. *)
Fixpoint curve_loop (pq : list (float * float)) : list CurvePoint.t * nat :=
  match pq with
  | [] => ([], O)
  | (p, q) :: rest =>
      let (curve, num_clamped) := curve_loop rest in
      if negb (isfinite q) || (q >=? Fin 1000000000000)%F then (curve, num_clamped)
      else (curve_point p q :: curve,
            if (q <? Fin 0)%F then S num_clamped else num_clamped)
  end.

Definition is_number (v : pyval) : bool :=
  match v with
  | PyInt _ | PyFloat _ | NpInt _ | NpFloat _ => true
  | _ => false
  end.

Definition P_lt (a b : CurvePoint.t) : bool :=
  (to_float (CurvePoint.P_percent a) <? to_float (CurvePoint.P_percent b))%F.

(** [sorted(curve, key=lambda item: item["P_percent"])]; [None] is the
    TypeError of comparing a key that is [None]. *)
Definition sorted_by_P_percent (curve : list CurvePoint.t) : option (list CurvePoint.t) :=
  if (length curve <=? 1)%nat then Some curve
  else if forallb (fun pt => is_number (CurvePoint.P_percent pt)) curve
       then Some (sort_by P_lt curve)
       else None.

(** ** Empirical points (lines 675-679, 716-722) *)

Definition empirical_point (p q : float) : CurvePoint.t :=
  {| CurvePoint.P_percent := _convert_to_python_type (NpFloat p);
     CurvePoint.Q := _convert_to_python_type (NpFloat q) |}.

Definition empirical (Qmax : list float) : list CurvePoint.t :=
  let Q_sorted := py_sorted_reverse Qmax in
  let n := length Q_sorted in
  let p_percent_empirical :=
    map (fun m => (of_nat m / of_nat (n + 1) * Fin 100)%F) (seq 1 n) in
  map (fun pq => empirical_point (fst pq) (snd pq)) (combine p_percent_empirical Q_sorted).

(** ** Statistics and quality warnings (lines 727-773) *)

(** [cv = std_Q / mean_Q if mean_Q != 0 else 0] *)
Definition coefficient_of_variation (mean_Q std_Q : float) : pyval :=
  if fneb mean_Q (Fin 0) then PyFloat (std_Q / mean_Q)%F else PyInt 0.

(** The goodness-of-fit check at P = 1%. *)
Definition validity_warning (distribution_name : string) (d : DistributionBase)
    (params : list pyval) (Qmax : list float) : list QualityWarning :=
  let Q_1pct := scipy_ppf (dist d) (map to_float params) (Fin 1 - Fin 0.01)%F in
  match np_max Qmax with
  | None => []
  | Some Q_max_val =>
      if isfinite Q_1pct && (Q_1pct <? Q_max_val * Fin 10)%F then
        if (Q_1pct <? Q_max_val)%F
        then [ImplausibleFit distribution_name Q_1pct Q_max_val]
        else []
      else []
  end.

Definition warnings (distribution_name : string) (d : DistributionBase)
    (params : list pyval) (Qmax : list float) (cv : pyval) (cs : float)
    (n num_clamped : nat) : list QualityWarning :=
  (if (to_float cv >? Fin 1)%F then [HighCv (to_float cv)] else [])
  ++ (if (fabs cs >? Fin 2.5)%F then [StrongSkew cs] else [])
  ++ (if (n <? 30)%nat then [SmallSample n] else [])
  ++ (if (0 <? num_clamped)%nat then [ClampedNegative num_clamped] else [])
  ++ validity_warning distribution_name d params Qmax.

(** [round(cv, 3)]: an [int] stays an [int]. *)
Definition py_round_val (v : pyval) (ndigits : Z) : pyval :=
  match v with
  | PyFloat x => PyFloat (py_round x ndigits)
  | _ => v
  end.

Definition summary (mean_Q std_Q : float) (cv : pyval) (cs : float) (n : nat)
  : Statistics.t :=
  {| Statistics.mean := _convert_to_python_type (PyFloat (py_round mean_Q 2));
     Statistics.std := _convert_to_python_type (PyFloat (py_round std_Q 2));
     Statistics.cv := _convert_to_python_type (py_round_val cv 3);
     Statistics.cs := _convert_to_python_type (PyFloat (py_round cs 3));
     Statistics.n := _convert_to_python_type (PyInt (Z.of_nat n)) |}.

(** ** [_bootstrap_iteration_worker]

    [None] is the worker's [return None]: an unknown distribution, a fit that
    raises, or too many outliers. *)
Definition _bootstrap_iteration_worker (seed : Z) (Qmax : list float) (n : nat)
    (distribution_name : string) (p_values_for_ci : list float)
    (Q_theoretical_ref : option (list float)) (absolute_max : float)
  : option (list float) :=
  match dist_map distribution_name with
  | None => None
  | Some dist =>
      let bootstrap_sample := rng_choice seed Qmax n in
      match scipy_fit dist bootstrap_sample with
      | None => None
      | Some bootstrap_params =>
          let bootstrap_Q :=
            map (fun p => scipy_ppf dist (map to_float bootstrap_params) (Fin 1 - p)%F)
                p_values_for_ci in
          let bootstrap_Q :=
            map (fun q => if isfinite q && (q >? Fin 0)%F && (q <? absolute_max)%F
                          then q else NaN) bootstrap_Q in
          match Q_theoretical_ref with
          | None => Some bootstrap_Q
          | Some ref =>
              let max_ratio := if distribution_name =? "lognorm" then Fin 8 else Fin 10 in
              let min_ratio :=
                if distribution_name =? "gumbel" then Fin 0.005
                else if distribution_name =? "lognorm" then Fin 0.15
                else Fin 0.05 in
              if (length ref <? length bootstrap_Q)%nat then None   (* IndexError *)
              else
                let outlier := fun qr : float * float =>
                  let (q, r) := qr in
                  isfinite q && isfinite r && (r >? Fin 0)%F
                  && (((q / r) <? min_ratio)%F || ((q / r) >? max_ratio)%F) in
                let outliers := length (filter outlier (combine bootstrap_Q ref)) in
                let finite := length (filter isfinite bootstrap_Q) in
                let outlier_threshold :=
                  if distribution_name =? "gumbel" then Fin 0.30 else Fin 0.10 in
                let outlier_ratio :=
                  if (0 <? finite)%nat then (of_nat outliers / of_nat finite)%F else Fin 0 in
                if (outlier_ratio >? outlier_threshold)%F then None else Some bootstrap_Q
          end
      end
  end.

(** ** Confidence intervals (lines 778-1332) *)

Definition fast_distributions : list string :=
  ["gumbel"; "lognorm"; "gamma"; "logistic"; "expon"; "pearson3"; "frechet"; "genpareto"].

Definition allow_ci (n : nat) (distribution_name : string) : bool :=
  (20 <=? n)%nat && existsb (String.eqb distribution_name) fast_distributions.

Definition n_bootstrap (distribution_name : string) : nat :=
  if distribution_name =? "gumbel" then 1500
  else if (distribution_name =? "pearson3") || (distribution_name =? "frechet") then 800
  else if distribution_name =? "genpareto" then 1000
  else 1000.

(** [p_percent_fixed[ci_mask]] *)
Definition ci_positions (p_percent_fixed : list float) : list float :=
  mask_select p_percent_fixed
    (map (fun p => (p >=? Fin 0.01)%F && (p <=? Fin 99.99)%F) p_percent_fixed).

Definition successful (results : list (option (list float))) : list (list float) :=
  flat_map (fun r => match r with Some q => [q] | None => [] end) results.

(** The list [bootstrap_quantiles] once the pool, or the sequential loop
    that replaces it, is done. *)
Definition gather (run : PoolRun) (results : list (option (list float)))
  : list (list float) :=
  match run with
  | PoolCompleted order =>
      successful (map (fun i => nth i results None) (order (length results)))
  | PoolFailed => successful results
  end.

Definition bootstrap_quantiles (env : Environment) (distribution_name : string)
    (d : DistributionBase) (params : list pyval) (Qmax : list float)
    (absolute_max : float) (p_percent_fixed : list float) : list (list float) :=
  let n := length Qmax in
  let p_values_for_ci := map (fun p => (p / Fin 100)%F) (ci_positions p_percent_fixed) in
  let Q_theoretical_ref := Some (map (ppf_exceedance d params) p_values_for_ci) in
  let seeds := firstn (n_bootstrap distribution_name) (random_ints env) in
  gather (pool env)
    (map (fun seed => _bootstrap_iteration_worker seed Qmax n distribution_name
                        p_values_for_ci Q_theoretical_ref absolute_max) seeds).

(** [np.nanpercentile(column, q, method='linear')] on the sorted non-NaN
    values of a column. *)
Definition percentile_linear (sorted : list float) (q : Q) : float :=
  match sorted with
  | [] => NaN
  | _ =>
      let m := Z.of_nat (length sorted) in
      let virtual_index := (inject_Z (m - 1) * q / 100)%Q in
      let previous := Qfloor virtual_index in
      let next := Z.min (previous + 1) (m - 1) in
      let gamma := Fin (Qred (virtual_index - inject_Z previous)) in
      let a := nth (Z.to_nat previous) sorted NaN in
      let b := nth (Z.to_nat next) sorted NaN in
      let diff_b_a := (b - a)%F in
      if (gamma >=? Fin 0.5)%F then (b - diff_b_a * (Fin 1 - gamma))%F
      else (a + diff_b_a * gamma)%F
  end.

Definition nanpercentile_1d (column : list float) (q : Q) : float :=
  percentile_linear (sort_by fltb (filter (fun x => negb (isnan x)) column)) q.

(** [np.nanpercentile(np.array(rows), q, axis=0, method='linear')] *)
Definition nanpercentile_axis0 (rows : list (list float)) (q : Q) : list float :=
  map (fun k => nanpercentile_1d (map (fun row => nth k row NaN) rows) q)
      (seq 0 (length (hd [] rows))).

(** The minimum-width adjustment for Gumbel at one position. *)
Definition widen (theo lower_ci upper_ci : float) : float * float :=
  if (theo >? Fin 0)%F && isfinite theo && isfinite lower_ci && isfinite upper_ci then
    let target_lower := (theo * Fin 0.85)%F in
    let target_upper := (theo * Fin 1.15)%F in
    let target_width := (theo * Fin 0.30)%F in
    let current_width := (upper_ci - lower_ci)%F in
    let current_relative_width := (current_width / theo * Fin 100)%F in
    if (current_relative_width <? Fin 30)%F then
      let lower_ci := if (lower_ci >? target_lower)%F then target_lower else lower_ci in
      let upper_ci := if (upper_ci <? target_upper)%F then target_upper else upper_ci in
      let current_width_after := (upper_ci - lower_ci)%F in
      if (current_width_after <? target_width)%F then
        let center := ((lower_ci + upper_ci) / Fin 2)%F in
        ((center - target_width / Fin 2)%F, (center + target_width / Fin 2)%F)
      else (lower_ci, upper_ci)
    else (lower_ci, upper_ci)
  else (lower_ci, upper_ci).

(** The swap at one position where [lower > upper]. *)
Definition swap_inverted (lu : float * float) : float * float :=
  let (lower_ci, upper_ci) := lu in
  if (lower_ci >? upper_ci)%F then (upper_ci, lower_ci) else (lower_ci, upper_ci).

(** [lower_ci] and [upper_ci], position by position, after the percentile,
    the Gumbel adjustment and the swap. *)
Definition ci_bounds (distribution_name : string) (Q_theoretical_for_ci : list float)
    (rows : list (list float)) : list (float * float) :=
  let lower_ci := nanpercentile_axis0 rows 2.5 in
  let upper_ci := nanpercentile_axis0 rows 97.5 in
  let bounds := combine lower_ci upper_ci in
  let bounds :=
    if distribution_name =? "gumbel"
    then map (fun tb => widen (fst tb) (fst (snd tb)) (snd (snd tb)))
             (combine Q_theoretical_for_ci bounds)
    else bounds in
  map swap_inverted bounds.

(** The three zones of a position relative to the empirical range, with the
    factor assigned in each. *)
Definition zone_factor (f_interpolation f_near f_far : float)
    (min_p_empirical max_p_empirical p : float) : float :=
  let is_interpolation := (p >=? min_p_empirical)%F && (p <=? max_p_empirical)%F in
  let is_near_extrapolation :=
    ((p >=? min_p_empirical * Fin 0.5)%F && (p <? min_p_empirical)%F)
    || ((p >? max_p_empirical)%F && (p <=? max_p_empirical * Fin 1.5)%F) in
  let is_far_extrapolation :=
    (p <? min_p_empirical * Fin 0.5)%F || (p >? max_p_empirical * Fin 1.5)%F in
  if is_far_extrapolation then f_far
  else if is_near_extrapolation then f_near
  else if is_interpolation then f_interpolation
  else Fin 1.                                               (* np.ones_like *)

Definition min_lower_factor (distribution_name : string) : float :=
  if distribution_name =? "gumbel" then Fin 0.02
  else if distribution_name =? "lognorm" then Fin 0.05
  else Fin 0.03.

(** [valid_mask] at one position, after the plausibility checks. *)
Definition plausible (distribution_name : string) (min_p_empirical max_p_empirical : float)
    (p theo lower_ci upper_ci : float) : bool :=
  let valid := isfinite lower_ci && isfinite upper_ci in
  if valid && isfinite theo && (theo >? Fin 0)%F then
    let ci_width := (upper_ci - lower_ci)%F in
    let max_width_factor :=
      zone_factor (Fin 2.5) (Fin 6) (Fin 8) min_p_empirical max_p_empirical p in
    let max_upper_factor :=
      zone_factor (Fin 4) (Fin 8) (Fin 10) min_p_empirical max_p_empirical p in
    let relative_width := (ci_width / theo * Fin 100)%F in
    if (relative_width >? max_width_factor * Fin 100)%F then false
    else if (upper_ci >? theo * max_upper_factor)%F then false
    else if (lower_ci <? theo * min_lower_factor distribution_name)%F then false
    else true
  else valid.

Definition ci_valid_mask (distribution_name : string) (min_p_empirical max_p_empirical : float)
    (p_percent_for_ci Q_theoretical_for_ci : list float) (bounds : list (float * float))
  : list bool :=
  map (fun x => let '(p, theo, (lower_ci, upper_ci)) := x in
                plausible distribution_name min_p_empirical max_p_empirical
                          p theo lower_ci upper_ci)
      (combine (combine p_percent_for_ci Q_theoretical_for_ci) bounds).

(** A band point [{"P_percent": float(p), "Q": float(q)}] while the band is
    being built. *)
Definition point : Type := (float * float)%type.

Definition point_lt (a b : point) : bool := (fst a <? fst b)%F.

(** [[point(p, q) for p, q, valid in zip(ps, qs, valid_mask) if valid]] *)
Definition points_where (ps qs : list float) (valid_mask : list bool) : list point :=
  mask_select (combine ps qs) valid_mask.

(** [d[k]] for the dictionary [{pt['P_percent']: pt['Q'] for pt in pts}]: the
    value of the last point with that key; [None] is a KeyError. *)
Fixpoint dict_lookup (k : float) (pts : list point) : option float :=
  match pts with
  | [] => None
  | (p, q) :: rest =>
      match dict_lookup k rest with
      | Some v => Some v
      | None => if feqb p k then Some q else None
      end
  end.

Definition has_key (pts : list point) (k : float) : bool :=
  existsb (fun pt => feqb (fst pt) k) pts.

Fixpoint dedup (l : list float) : list float :=
  match l with
  | [] => []
  | x :: l' => if existsb (feqb x) l' then dedup l' else x :: dedup l'
  end.

(** [sorted(set(lower_dict.keys()) & set(upper_dict.keys()))] *)
Definition common_keys (lower_points upper_points : list point) : list float :=
  py_sorted (dedup (filter (has_key upper_points) (map fst lower_points))).

(** [[point(p, d[p]) for p in keys]] *)
Definition points_of_keys (keys : list float) (pts : list point) : option (list point) :=
  option_map_all (fun p => option_map (fun q => (p, q)) (dict_lookup p pts)) keys.

(** The loop over [common_p] that fills [temp_lower] and [temp_upper]. *)
Fixpoint safe_pairs (common_p : list float) (lower_points upper_points : list point)
  : option (list point * list point) :=
  match common_p with
  | [] => Some ([], [])
  | p :: rest =>
      match dict_lookup p lower_points, dict_lookup p upper_points,
            safe_pairs rest lower_points upper_points with
      | Some lower_q, Some upper_q, Some (temp_lower, temp_upper) =>
          if (lower_q <? upper_q)%F && (lower_q >=? Fin 0)%F
             && isfinite lower_q && isfinite upper_q
          then Some ((p, lower_q) :: temp_lower, (p, upper_q) :: temp_upper)
          else Some (temp_lower, temp_upper)
      | _, _, _ => None
      end
  end.

(** Adaptive sampling of a band of more than 300 points. *)
Definition selected_indices (min_p_empirical max_p_empirical : float)
    (temp_lower : list point) : list nat :=
  let p_array := map fst temp_lower in
  let is_interpolation :=
    map (fun p => (p >=? min_p_empirical)%F && (p <=? max_p_empirical)%F) p_array in
  let is_near_extrapolation :=
    map (fun p => ((p >=? min_p_empirical * Fin 0.5)%F && (p <? min_p_empirical)%F)
                  || ((p >? max_p_empirical)%F && (p <=? max_p_empirical * Fin 1.5)%F))
        p_array in
  let is_far_extrapolation :=
    map (fun p => (p <? min_p_empirical * Fin 0.5)%F || (p >? max_p_empirical * Fin 1.5)%F)
        p_array in
  let interp_indices := np_where is_interpolation in
  let selected :=
    if (150 <? length interp_indices)%nat
    then slice_step (Nat.max 1 (length interp_indices / 150)) interp_indices
    else interp_indices in
  let selected := (selected ++ slice_step 2 (np_where is_near_extrapolation))%list in
  let selected := (selected ++ slice_step 3 (np_where is_far_extrapolation))%list in
  let selected := sorted_set_nat selected in
  if (0 <? length temp_lower)%nat then
    let selected := if existsb (Nat.eqb 0) selected then selected else 0%nat :: selected in
    let last := (length temp_lower - 1)%nat in
    let selected := if existsb (Nat.eqb last) selected then selected else (selected ++ [last])%list in
    sorted_set_nat selected
  else selected.

Definition compact (min_p_empirical max_p_empirical : float)
    (temp_lower temp_upper : list point) : option (list point * list point) :=
  if (300 <? length temp_lower)%nat then
    let selected := selected_indices min_p_empirical max_p_empirical temp_lower in
    match select_indices selected temp_lower, select_indices selected temp_upper with
    | Some final_lower, Some final_upper => Some (final_lower, final_upper)
    | _, _ => None
    end
  else Some (temp_lower, temp_upper).

(** The interpolated band of the gap-filling branch (the body of the inner
    [try]); [None] when a step in it raises. *)
Definition interpolate_band (common_p_sorted lower_q_array upper_q_array p_interp : list float)
  : option (list point * list point) :=
  let lower_interp := map (interp1d common_p_sorted lower_q_array) p_interp in
  let upper_interp := map (interp1d common_p_sorted upper_q_array) p_interp in
  let valid_interp :=
    map (fun lu => let (l, u) := lu : float * float in
                   (l <? u)%F && (l >=? Fin 0)%F && isfinite l && isfinite u)
        (combine lower_interp upper_interp) in
  let final_lower_interp := points_where p_interp lower_interp valid_interp in
  let final_upper_interp := points_where p_interp upper_interp valid_interp in
  let common_p_interp := common_keys final_lower_interp final_upper_interp in
  match points_of_keys common_p_interp final_lower_interp,
        points_of_keys common_p_interp final_upper_interp with
  | Some final_lower, Some final_upper => Some (final_lower, final_upper)
  | _, _ => None
  end.

(** Gap filling (lines 1181-1265). *)
Definition fill_gaps (final_lower final_upper : list point)
  : option (list point * list point) :=
  if (2 <? length final_lower)%nat && (2 <? length final_upper)%nat then
    let common_p_sorted := common_keys final_lower final_upper in
    let original :=
      match points_of_keys common_p_sorted final_lower,
            points_of_keys common_p_sorted final_upper with
      | Some l, Some u => Some (l, u)
      | _, _ => None
      end in
    if (2 <? length common_p_sorted)%nat then
      let gaps := np_diff common_p_sorted in
      if existsb (fun g => (g >? Fin 5)%F) gaps then
        let p_min := hd NaN common_p_sorted in
        let p_max := last common_p_sorted NaN in
        match np_arange p_min (p_max + Fin 1)%F (Fin 1) with
        | None => None
        | Some p_interp =>
            match option_map_all (fun p => dict_lookup p final_lower) common_p_sorted,
                  option_map_all (fun p => dict_lookup p final_upper) common_p_sorted with
            | Some lower_q_array, Some upper_q_array =>
                match interpolate_band common_p_sorted lower_q_array upper_q_array p_interp with
                | Some band => Some band
                | None => original                (* "using original points" *)
                end
            | _, _ => None
            end
        end
      else original
    else original
  else Some (final_lower, final_upper).

Definition band_point (pt : point) : CurvePoint.t :=
  {| CurvePoint.P_percent := PyFloat (fst pt); CurvePoint.Q := PyFloat (snd pt) |}.

(** From the valid positions to the returned band (lines 1082-1270). *)
Definition assemble_band (min_p_empirical max_p_empirical : float)
    (p_percent_for_ci : list float) (bounds : list (float * float))
    (valid_mask : list bool) : option ConfidenceIntervals :=
  let lower_points :=
    sort_by point_lt (points_where p_percent_for_ci (map fst bounds) valid_mask) in
  let upper_points :=
    sort_by point_lt (points_where p_percent_for_ci (map snd bounds) valid_mask) in
  let common_p := common_keys lower_points upper_points in
  option_bind (safe_pairs common_p lower_points upper_points) (fun temp =>
  option_bind (compact min_p_empirical max_p_empirical (fst temp) (snd temp)) (fun final =>
  let final_lower := sort_by point_lt (fst final) in
  let final_upper := sort_by point_lt (snd final) in
  option_bind (fill_gaps final_lower final_upper) (fun final =>
  Some {| lower := map band_point (fst final);
          upper := map band_point (snd final) |}))).

(** The value of [confidence_intervals] at the [return]; every exception of
    the block is caught there and leaves [None]. *)
Definition confidence_band (env : Environment) (distribution_name : string)
    (d : DistributionBase) (params : list pyval) (Qmax : list float)
    (absolute_max : float) (p_percent_fixed : list float) : option ConfidenceIntervals :=
  let n := length Qmax in
  if allow_ci n distribution_name then
    let p_empirical := Weibull Qmax in
    match np_min p_empirical, np_max p_empirical with
    | Some min_p_empirical, Some max_p_empirical =>
        let p_percent_for_ci := ci_positions p_percent_fixed in
        let p_values_for_ci := map (fun p => (p / Fin 100)%F) p_percent_for_ci in
        if (length p_values_for_ci <? 5)%nat then None
        else
          let rows := bootstrap_quantiles env distribution_name d params Qmax
                        absolute_max p_percent_fixed in
          match rows with
          | [] => None   (* no iteration succeeded; the dedented line 998 then
                            reads an unbound local and the handler leaves None *)
          | _ =>
              let Q_theoretical_for_ci := map (ppf_exceedance d params) p_values_for_ci in
              let bounds := ci_bounds distribution_name Q_theoretical_for_ci rows in
              let valid_mask :=
                ci_valid_mask distribution_name min_p_empirical max_p_empirical
                  p_percent_for_ci Q_theoretical_for_ci bounds in
              let valid_count := count_true valid_mask in
              let total_count := length p_percent_for_ci in
              if (of_nat valid_count <? of_nat total_count * Fin 0.3)%F then None
              else assemble_band min_p_empirical max_p_empirical
                     p_percent_for_ci bounds valid_mask
          end
    | _, _ => None
    end
  else None.

(** ** [compute_frequency_curve] *)

(** A step that either ends the call or hands a value to the next step. *)
Inductive Step (A : Type) : Type :=
| Stop (o : Outcome)
| Continue (a : A).
Arguments Stop {A} o.
Arguments Continue {A} a.

(** [year_counts.max() > 1] *)
Definition duplicate_years (df : DataFrame) : bool :=
  negb (length (nodup Z.eq_dec (map fst (rows df))) =? length (rows df))%nat.

(** [Qmax] at line 377: the column itself when every year occurs once, the
    per-year aggregate otherwise. *)
Definition aggregated_series (agg_func : string) (df : DataFrame) : list float :=
  if duplicate_years df then groupby_agg agg_func (rows df)
  else map snd (rows df).

(** [Qmax_filtered]: the finite, strictly positive values. *)
Definition valid_values (Qmax : list float) : list float :=
  filter (fun x => isfinite x && (x >? Fin 0)%F) (filter isfinite Qmax).

(** Validation, aggregation and filtering (lines 325-436). *)
Definition prepare_series (svc : DataService) (distribution_name agg_func method : string)
  : Step (DistributionBase * list float) :=
  if negb (validate_agg_func agg_func) then Stop (HTTPException 400 InvalidAggregationFunction)
  else
    match distributions distribution_name with
    | None => Stop (HTTPException 400 UnsupportedDistribution)
    | Some d =>
        if negb (existsb (String.eqb method) ["auto"; "mom"; "mle"])
        then Stop (HTTPException 400 InvalidMethod)
        else
          match data svc with
          | None => Stop EmptyCurves
          | Some df =>
              match rows df with
              | [] => Stop EmptyCurves                                   (* df.empty *)
              | _ =>
                  if negb (existsb (String.eqb (main_column svc)) (columns df))
                  then Stop (HTTPException 400 MissingColumn)
                  else
                    let Qmax := filter isfinite (aggregated_series agg_func df) in
                    match np_min Qmax with
                    | None => Stop (HTTPException 400 DataProcessingError)
                    | Some _ =>
                        match Qmax with
                        | [] => Stop EmptyCurves                         (* Qmax.size == 0 *)
                        | _ =>
                            let Qmax_filtered := valid_values (aggregated_series agg_func df) in
                            match Qmax_filtered with
                            | [] => Stop (HTTPException 400 EmptyAfterFiltering)
                            | _ =>
                                if (length Qmax_filtered <? 3)%nat
                                then Stop (HTTPException 400
                                             (InsufficientData (length Qmax_filtered)))
                                else Continue (d, Qmax_filtered)
                            end
                        end
                    end
              end
          end
    end.

(** Everything after the fit (lines 486-1357). *)
Definition curve_result (env : Environment) (distribution_name : string)
    (d : DistributionBase) (params : list pyval) (Qmax : list float)
    (absolute_max : float) : Outcome :=
  let mean_Q := np_mean Qmax in
  let std_Q := np_std_ddof1 Qmax in
  let pq := theoretical_quantiles distribution_name d params mean_Q std_Q p_percent_sampled in
  let p_percent_fixed := fst pq in
  let Q_theoretical := snd pq in
  let n := length (py_sorted_reverse Qmax) in
  let loop := curve_loop (combine p_percent_fixed Q_theoretical) in
  let num_clamped := snd loop in
  match sorted_by_P_percent (fst loop) with
  | None => HTTPException 500 InternalError
  | Some theoretical_curve =>
      let cv := coefficient_of_variation mean_Q std_Q in
      let cs := scipy_skew Qmax in
      match extract_params params with
      | None => HTTPException 500 InternalError
      | Some params_dict =>
          Result
            {| theoretical_curve := theoretical_curve;
               empirical_points := empirical Qmax;
               confidence_intervals :=
                 confidence_band env distribution_name d params Qmax absolute_max
                                 p_percent_fixed;
               statistics := summary mean_Q std_Q cv cs n;
               parameters := params_dict;
               distribution := distribution_name;
               quality_warnings :=
                 warnings distribution_name d params Qmax cv cs n num_clamped |}
      end
  end.

Definition compute_frequency_curve (env : Environment) (svc : DataService)
    (distribution_name agg_func method : string) : Outcome :=
  match prepare_series svc distribution_name agg_func method with
  | Stop o => o
  | Continue (d, Qmax) =>
      match np_max Qmax with
      | None => HTTPException 500 InternalError
      | Some max_observed =>
          let reasonable_max := (max_observed * Fin 10000)%F in
          let absolute_max :=                      (* min(reasonable_max, 1e10) *)
            if (Fin 10000000000 <? reasonable_max)%F then Fin 10000000000 else reasonable_max in
          match fit_parameters d distribution_name method Qmax with
          | None => HTTPException 400 DegenerateFit
          | Some params =>
              curve_result env distribution_name d params Qmax absolute_max
          end
      end
  end.

End Engine.

Arguments Stop {A} o.
Arguments Continue {A} a.

(** ** An executable instance of the numerical libraries

    Crude rational stand-ins, enough to run the engine on concrete inputs:
    a truncated square root, low-order approximations of the logarithm and
    the exponential, a [fit] by mean and range, a location-scale [ppf], a
    counter-based resampler and a per-year aggregation. *)

Definition demo_sqrt (x : float) : float :=
  match x with
  | Fin q =>
      if Qltb q 0 then NaN
      else
        let a := Qnum q in
        let b := Zpos (Qden q) in
        Fin (Qred (inject_Z (Z.sqrt (a * b * 10 ^ 16)) / inject_Z (b * 10 ^ 8)))
  | PInf => PInf
  | _ => NaN
  end.

Definition demo_log (x : float) : float :=
  match x with
  | Fin q => if Qle_bool q 0 then (if Qeq_bool q 0 then NInf else NaN)
             else (Fin 2 * ((x - Fin 1) / (x + Fin 1)))%F
  | PInf => PInf
  | _ => NaN
  end.

Definition demo_exp (x : float) : float :=
  match x with
  | Fin _ => (Fin 1 + x + x * x / Fin 2)%F
  | PInf => PInf
  | NInf => Fin 0
  | NaN => NaN
  end.

Definition demo_log10 (x : float) : float := (demo_log x / Fin 2.302585092994046)%F.
Definition demo_power10 (x : float) : float := demo_exp (x * Fin 2.302585092994046)%F.

(** Location and scale by the mean and a quarter of the range. *)
Definition demo_loc_scale (data : list float) : float * float :=
  match np_min data, np_max data with
  | Some lo, Some hi => (np_mean data, ((hi - lo) / Fin 4)%F)
  | _, _ => (NaN, NaN)
  end.

Definition demo_fit (d : scipy_dist) (data : list float) : option (list pyval) :=
  match data with
  | [] => None
  | _ =>
      let (m, s) := demo_loc_scale data in
      match d with
      | gumbel_r | logistic | expon => Some [NpFloat m; NpFloat s]
      | _ => Some [NpFloat (Fin 1); NpFloat m; NpFloat s]
      end
  end.

(** The quantile of a symmetric location-scale family with bounded support. *)
Definition demo_ppf (d : scipy_dist) (params : list float) (q : float) : float :=
  let loc := nth (length params - 2) params NaN in
  let scale := nth (length params - 1) params NaN in
  if (scale >? Fin 0)%F && (q >? Fin 0)%F && (q <? Fin 1)%F
  then (loc + scale * (Fin 2 * q - Fin 1))%F
  else NaN.

Definition demo_choice (seed : Z) (data : list float) (n : nat) : list float :=
  map (fun i => nth (Z.to_nat ((seed + 7 * Z.of_nat i) mod Z.of_nat (length data)))
                    data NaN)
      (seq 0 n).

Definition demo_interp1d (x y : list float) (x_new : float) : float :=
  match filter (fun xy => (fst xy <=? x_new)%F) (combine x y) with
  | [] => hd NaN y
  | below => snd (last below (NaN, NaN))
  end.

Definition demo_groupby_agg (agg_func : string) (rows : list (Z * float)) : list float :=
  let years := sort_by Z.ltb (nodup Z.eq_dec (map fst rows)) in
  map (fun year =>
         let group := map snd (filter (fun r => Z.eqb (fst r) year) rows) in
         if String.eqb agg_func "max" then match np_max group with Some m => m | None => NaN end
         else if String.eqb agg_func "min" then match np_min group with Some m => m | None => NaN end
         else if String.eqb agg_func "sum" then np_sum group
         else np_mean group)
      years.

(** * Properties *)

(** ** Order on doubles *)

Lemma Qltb_lt (x y : Q) : Qltb x y = true <-> (x < y)%Q.
Proof.
  unfold Qltb. rewrite negb_true_iff. split; intro H.
  - apply Qnot_le_lt. intro Hle. apply Qle_bool_iff in Hle. congruence.
  - destruct (Qle_bool y x) eqn:E; [|reflexivity].
    apply Qle_bool_iff in E. exfalso. apply (Qlt_not_le _ _ H E).
Qed.

Lemma Qltb_ge (x y : Q) : Qltb x y = false <-> (y <= x)%Q.
Proof.
  unfold Qltb. rewrite negb_false_iff. apply Qle_bool_iff.
Qed.

Lemma Qle_bool_gt (x y : Q) : Qle_bool x y = false <-> (y < x)%Q.
Proof.
  rewrite <- Qltb_lt. unfold Qltb. destruct (Qle_bool x y); simpl; intuition congruence.
Qed.

Lemma Qeq_bool_false (x y : Q) : Qeq_bool x y = false <-> ~ (x == y)%Q.
Proof.
  split.
  - intros H E. apply Qeq_bool_iff in E. congruence.
  - intro H. destruct (Qeq_bool x y) eqn:E; [|reflexivity].
    apply Qeq_bool_iff in E. contradiction.
Qed.

(** Turn the boolean comparisons of a goal and its hypotheses into
    propositions on rationals. *)
Ltac q_prop :=
  repeat match goal with
  | H : Qltb _ _ = true |- _ => apply Qltb_lt in H
  | H : Qltb _ _ = false |- _ => apply Qltb_ge in H
  | H : Qle_bool _ _ = true |- _ => apply Qle_bool_iff in H
  | H : Qle_bool _ _ = false |- _ => apply Qle_bool_gt in H
  | H : Qeq_bool _ _ = true |- _ => apply Qeq_bool_iff in H
  | H : Qeq_bool _ _ = false |- _ => apply Qeq_bool_false in H
  | |- Qltb _ _ = true => apply Qltb_lt
  | |- Qltb _ _ = false => apply Qltb_ge
  | |- Qle_bool _ _ = true => apply Qle_bool_iff
  | |- Qle_bool _ _ = false => apply Qle_bool_gt
  | |- Qeq_bool _ _ = true => apply Qeq_bool_iff
  | |- Qeq_bool _ _ = false => apply Qeq_bool_false
  end.

(** Case analysis on the doubles in sight, then rational arithmetic. *)
Ltac float_cases :=
  repeat match goal with
  | x : float |- _ => destruct x
  end;
  simpl in *; try discriminate; try reflexivity; try tauto;
  q_prop; try lra.


Lemma fltb_asym (x y : float) : fltb x y = true -> fltb y x = false.
Proof. intro H. float_cases. Qed.


Lemma fleb_trans (x y z : float) : fleb x y = true -> fleb y z = true -> fleb x z = true.
Proof. intros H1 H2. float_cases. Qed.

Lemma fleb_fltb_trans (x y z : float) :
  fleb x y = true -> fltb y z = true -> fltb x z = true.
Proof. intros H1 H2. float_cases. Qed.

Lemma fltb_fleb_trans (x y z : float) :
  fltb x y = true -> fleb y z = true -> fltb x z = true.
Proof. intros H1 H2. float_cases. Qed.


Lemma fltb_false_fleb (x y : float) :
  isnan x = false -> isnan y = false -> fltb x y = false -> fleb y x = true.
Proof. intros Hx Hy H. float_cases. Qed.

Lemma fltb_notnan (x y : float) : fltb x y = true -> isnan x = false /\ isnan y = false.
Proof. intro H. float_cases. Qed.

Lemma fleb_notnan (x y : float) : fleb x y = true -> isnan x = false /\ isnan y = false.
Proof. intro H. float_cases. Qed.


Lemma feqb_refl (x : float) : isnan x = false -> feqb x x = true.
Proof. intro H. float_cases. Qed.

Lemma fltb_feqb_l (x y z : float) : feqb x y = true -> fltb x z = fltb y z.
Proof.
  intro H. destruct x, y, z; simpl in *; try discriminate; try reflexivity.
  apply Qeq_bool_iff in H. unfold Qltb. f_equal.
  destruct (Qle_bool q1 q) eqn:E1, (Qle_bool q1 q0) eqn:E2; try reflexivity; q_prop; lra.
Qed.

Lemma fltb_feqb_r (x y z : float) : feqb x y = true -> fltb z x = fltb z y.
Proof.
  intro H. destruct x, y, z; simpl in *; try discriminate; try reflexivity.
  apply Qeq_bool_iff in H. unfold Qltb. f_equal.
  destruct (Qle_bool q q1) eqn:E1, (Qle_bool q0 q1) eqn:E2; try reflexivity; q_prop; lra.
Qed.

(** ** Rounding *)

Lemma rnd_eq (x y : Q) : (x == y)%Q -> rnd x = rnd y.
Proof.
  intro H. unfold rnd.
  assert (E1 : Qltb float_max x = Qltb float_max y).
  { unfold Qltb. f_equal.
    destruct (Qle_bool x float_max) eqn:A, (Qle_bool y float_max) eqn:B;
      try reflexivity; q_prop; lra. }
  assert (E2 : Qltb x (- float_max) = Qltb y (- float_max)).
  { unfold Qltb. f_equal.
    destruct (Qle_bool (- float_max) x) eqn:A, (Qle_bool (- float_max) y) eqn:B;
      try reflexivity; q_prop; lra. }
  rewrite E1, E2. rewrite (Qred_complete _ _ H). reflexivity.
Qed.

Lemma float_max_pos : (0 < float_max)%Q.
Proof. reflexivity. Qed.

(** What [rnd] returns, by the size of its argument. *)
Lemma rnd_cases (x : Q) :
  (rnd x = PInf /\ (float_max < x)%Q)
  \/ (rnd x = NInf /\ (x < - float_max)%Q)
  \/ (rnd x = Fin (Qred x) /\ (- float_max <= x <= float_max)%Q).
Proof.
  unfold rnd.
  destruct (Qltb float_max x) eqn:A.
  - left. q_prop. auto.
  - destruct (Qltb x (- float_max)) eqn:B.
    + right. left. q_prop. auto.
    + right. right. q_prop. auto.
Qed.

Lemma rnd_small (x : Q) :
  (- float_max <= x <= float_max)%Q -> rnd x = Fin (Qred x).
Proof.
  intros [H1 H2]. pose proof float_max_pos.
  destruct (rnd_cases x) as [[_ H3]|[[_ H3]|[H3 _]]]; try lra. exact H3.
Qed.

Lemma rnd_notnan (x : Q) : isnan (rnd x) = false.
Proof.
  destruct (rnd_cases x) as [[E _]|[[E _]|[E _]]]; rewrite E; reflexivity.
Qed.

(** ** Sorting and selection *)

Section SortBy.

Context {A : Type} (lt : A -> A -> bool).

Lemma insert_by_perm (x : A) (l : list A) : Permutation (insert_by lt x l) (x :: l).
Proof.
  induction l as [|y l IH]; simpl.
  - apply Permutation_refl.
  - destruct (lt y x).
    + eapply Permutation_trans; [apply perm_skip, IH | apply perm_swap].
    + apply Permutation_refl.
Qed.

Lemma sort_by_perm (l : list A) : Permutation (sort_by lt l) l.
Proof.
  induction l as [|x l IH]; simpl.
  - apply perm_nil.
  - eapply Permutation_trans; [apply insert_by_perm | apply perm_skip, IH].
Qed.


Lemma sort_by_In (x : A) (l : list A) : In x (sort_by lt l) <-> In x l.
Proof.
  split; apply Permutation_in; [|apply Permutation_sym]; apply sort_by_perm.
Qed.

Lemma sort_by_Forall (P : A -> Prop) (l : list A) : Forall P l -> Forall P (sort_by lt l).
Proof.
  intro H. rewrite Forall_forall in *. intros x Hx.
  apply H. apply (proj1 (sort_by_In x l)), Hx.
Qed.

Hypothesis lt_asym : forall a b, lt a b = true -> lt b a = false.

Lemma insert_by_sorted (x : A) (l : list A) :
  Sorted (fun a b => lt b a = false) l ->
  Sorted (fun a b => lt b a = false) (insert_by lt x l).
Proof.
  induction l as [|y l IH]; simpl; intro H.
  - repeat constructor.
  - destruct (lt y x) eqn:E.
    + inversion H as [|? ? Hs Hh]; subst. constructor.
      * apply IH, Hs.
      * destruct l as [|z l]; simpl.
        -- constructor. apply lt_asym, E.
        -- destruct (lt z x); constructor.
           ++ inversion Hh; assumption.
           ++ apply lt_asym, E.
    + constructor; [exact H | constructor; exact E].
Qed.

Lemma sort_by_sorted (l : list A) : Sorted (fun a b => lt b a = false) (sort_by lt l).
Proof.
  induction l as [|x l IH]; simpl.
  - constructor.
  - apply insert_by_sorted, IH.
Qed.

(** Sorting a list that is already strictly increasing changes nothing. *)
Lemma sort_by_id (l : list A) :
  StronglySorted (fun a b => lt a b = true) l -> sort_by lt l = l.
Proof.
  induction l as [|x l IH]; simpl; intro H; [reflexivity|].
  inversion H as [|? ? Hs Hf]; subst. rewrite (IH Hs).
  destruct l as [|y l]; simpl; [reflexivity|].
  inversion Hf as [|? ? Hxy _]; subst. rewrite (lt_asym _ _ Hxy). reflexivity.
Qed.

End SortBy.

Lemma mask_select_In {A : Type} (x : A) (l : list A) (mask : list bool) :
  In x (mask_select l mask) -> In x l.
Proof.
  revert mask. induction l as [|y l IH]; intros [|b mask]; simpl; try tauto.
  destruct b; simpl; intros H.
  - destruct H as [H|H]; [left; exact H | right; eapply IH, H].
  - right. eapply IH, H.
Qed.

Lemma mask_select_Forall {A : Type} (P : A -> Prop) (l : list A) (mask : list bool) :
  Forall P l -> Forall P (mask_select l mask).
Proof.
  intro H. rewrite Forall_forall in *. intros x Hx.
  apply H. eapply mask_select_In, Hx.
Qed.

Lemma mask_select_sorted {A : Type} (R : A -> A -> Prop) (l : list A) (mask : list bool) :
  StronglySorted R l -> StronglySorted R (mask_select l mask).
Proof.
  revert mask. induction l as [|y l IH]; intros [|b mask] H; simpl; try constructor.
  inversion H as [|? ? Hs Hf]; subst. destruct b.
  - constructor; [apply IH, Hs | apply mask_select_Forall, Hf].
  - apply IH, Hs.
Qed.

(** ** The sampled positions *)

(** A position of the display range [0.01, 99.99]. *)
Definition in_display_range (x : float) : Prop :=
  exists q, x = Fin q /\ (0.01 <= q <= 99.99)%Q.

Definition flt (x y : float) : Prop := fltb x y = true.

(** The positions kept after [x] by the duplicate filter. *)
Fixpoint keep_after (x : float) (t : list float) : list float :=
  match t with
  | [] => []
  | y :: t' =>
      if ((y - x) >? Fin 0.000001)%F then y :: keep_after y t' else keep_after y t'
  end.

Lemma unique_mask_select (l : list float) :
  mask_select l (unique_mask l) =
  match l with
  | [] => []
  | x :: t => x :: keep_after x t
  end.
Proof.
  destruct l as [|x t]; [reflexivity|].
  unfold unique_mask. cbn [mask_select]. f_equal.
  revert x. induction t as [|y t IH]; intro x; [reflexivity|].
  change (np_diff (x :: y :: t)) with ((y - x)%F :: np_diff (y :: t)).
  cbn [map mask_select keep_after]. rewrite IH. reflexivity.
Qed.

Lemma keep_after_nans (x : float) (nans : list float) :
  Forall (fun y => isnan y = true) nans -> keep_after x nans = [].
Proof.
  intro H. revert x. induction H as [|y nans Hy _ IH]; intro x; [reflexivity|].
  simpl. destruct y; try discriminate. destruct x; simpl; apply IH.
Qed.

Lemma keep_after_app_nans (x : float) (t nans : list float) :
  Forall (fun y => isnan y = true) nans ->
  keep_after x (t ++ nans) = keep_after x t.
Proof.
  intro H. revert x. induction t as [|y t IH]; intro x; simpl.
  - apply keep_after_nans, H.
  - rewrite !IH. reflexivity.
Qed.

Lemma clip_display_range (x : float) :
  isnan x = false -> in_display_range (np_clip (Fin 0.01) (Fin 99.99) x).
Proof.
  intro H. destruct x as [q| | |]; try discriminate; simpl.
  - destruct (Qltb q 0.01) eqn:A.
    + exists 0.01%Q. split; [reflexivity|lra].
    + destruct (Qltb 99.99 q) eqn:B.
      * exists 99.99%Q. split; [reflexivity|lra].
      * exists q. q_prop. split; [reflexivity|lra].
  - exists 99.99%Q. split; [reflexivity|lra].
  - exists 0.01%Q. split; [reflexivity|lra].
Qed.

Lemma clip_nan (lo hi x : float) : isnan x = true -> np_clip lo hi x = NaN.
Proof. destruct x; simpl; intro H; try discriminate; reflexivity. Qed.

Lemma float_max_large : (1000000 <= float_max)%Q.
Proof. unfold Qle. simpl. lia. Qed.

(** Two positions of the display range further apart than the tolerance
    are strictly ordered. *)
Lemma diff_gt_flt (x y : float) :
  in_display_range x -> in_display_range y ->
  ((y - x) >? Fin 0.000001)%F = true -> flt x y.
Proof.
  intros [a [-> Ha]] [b [-> Hb]] H. unfold flt. simpl.
  unfold fsub, fneg, fgtb in H. pose proof float_max_large as HM.
  rewrite (rnd_small (- a)) in H by lra. cbn [fadd] in H.
  pose proof (Qred_correct (- a)) as E1.
  rewrite (rnd_small (b + Qred (- a))) in H by lra. cbn [fltb] in H.
  pose proof (Qred_correct (b + Qred (- a))) as E2.
  q_prop. lra.
Qed.

Lemma in_display_range_notnan (x : float) : in_display_range x -> isnan x = false.
Proof. intros [q [-> _]]. reflexivity. Qed.

Lemma keep_after_sorted (t : list float) (x : float) :
  Forall in_display_range (x :: t) ->
  Sorted (fun a b => fltb b a = false) (x :: t) ->
  Forall (flt x) (keep_after x t) /\ StronglySorted flt (keep_after x t).
Proof.
  revert x. induction t as [|y t IH]; intros x Hr Hs; cbn [keep_after].
  - split; constructor.
  - inversion Hr as [|? ? Hx Hr']; subst.
    inversion Hs as [|? ? Hs' Hh]; subst.
    inversion Hh as [|? ? Hyx]; subst.
    inversion Hr' as [|? ? Hy _]; subst.
    destruct (IH y Hr' Hs') as [Hf Hss].
    assert (Hle : fleb x y = true).
    { apply fltb_false_fleb; auto using in_display_range_notnan. }
    assert (Hfx : Forall (flt x) (keep_after y t)).
    { eapply Forall_impl; [|exact Hf]. intros z Hz.
      eapply fleb_fltb_trans; eassumption. }
    destruct ((y - x) >? Fin 0.000001)%F eqn:E.
    + split; constructor; auto. apply diff_gt_flt; assumption.
    + split; assumption.
Qed.

Section Positions.

Context {K : Numerics}.

Lemma inverse_mixed_scale_one : inverse_mixed_scale (Fin 1) = Fin 99.99.
Proof. vm_compute. reflexivity. Qed.

Lemma last_position : In (Fin 1) mixed_scale_positions.
Proof.
  unfold mixed_scale_positions. apply in_map_iff. exists 599%nat. split.
  - vm_compute. reflexivity.
  - apply in_seq. unfold num_points. lia.
Qed.

(** The positions at which the curve is evaluated are strictly increasing
    and lie in [0.01, 99.99]. *)
Lemma sampled_positions_spec :
  StronglySorted flt p_percent_sampled /\ Forall in_display_range p_percent_sampled.
Proof.
  unfold p_percent_sampled.
  set (l := map (np_clip min_p max_p) (map inverse_mixed_scale mixed_scale_positions)).
  rewrite unique_mask_select. unfold np_sort.
  set (s := sort_by fltb (filter (fun x => negb (isnan x)) l)).
  assert (Hrange : Forall in_display_range s).
  { apply sort_by_Forall. apply Forall_forall. intros x Hx.
    apply filter_In in Hx. destruct Hx as [Hin Hn]. apply negb_true_iff in Hn.
    unfold l in Hin. apply in_map_iff in Hin. destruct Hin as [z [<- _]].
    destruct (isnan z) eqn:Ez.
    - rewrite clip_nan in Hn by exact Ez. discriminate.
    - apply clip_display_range, Ez. }
  assert (Hsorted : Sorted (fun a b => fltb b a = false) s).
  { apply sort_by_sorted. apply fltb_asym. }
  assert (Hne : In (Fin 99.99) s).
  { apply sort_by_In. apply filter_In. split; [|reflexivity].
    unfold l. apply in_map_iff. exists (Fin 99.99). split; [reflexivity|].
    apply in_map_iff. exists (Fin 1). split.
    - apply inverse_mixed_scale_one.
    - apply last_position. }
  destruct s as [|x t]; [destruct Hne|].
  cbn [app]. rewrite keep_after_app_nans.
  - destruct (keep_after_sorted t x Hrange Hsorted) as [Hf Hss].
    split.
    + constructor; assumption.
    + inversion Hrange as [|? ? Hx Ht]; subst. constructor; [exact Hx|].
      clear - Hrange Hsorted.
      (* every kept position is one of the sorted positions *)
      assert (Hsub : forall t x z, In z (keep_after x t) -> In z t).
      { clear. induction t as [|y t IH]; intros x z; cbn [keep_after]; [simpl; tauto|].
        destruct ((y - x) >? Fin 0.000001)%F; simpl; intros H.
        - destruct H as [H|H]; [left; exact H | right; eapply IH, H].
        - right. eapply IH, H. }
      apply Forall_forall. intros z Hz. apply Hsub in Hz.
      inversion Hrange as [|? ? _ Ht]; subst.
      rewrite Forall_forall in Ht. apply Ht, Hz.
  - apply Forall_forall. intros y Hy. apply filter_In in Hy. tauto.
Qed.

End Positions.

(** ** The theoretical curve *)

(** A probability strictly between 0 and 100, as a native float. *)
Definition percent_value (v : pyval) : Prop :=
  exists p, v = PyFloat (Fin p) /\ (0 < p < 100)%Q.

(** A native number that is finite and not negative. *)
Definition nonnegative_value (v : pyval) : Prop :=
  v = PyInt 0 \/ exists q, v = PyFloat (Fin q) /\ (0 <= q)%Q.

Definition P_increasing (a b : CurvePoint.t) : Prop := P_lt a b = true.

(** The quantiles the loop clamps: finite, below the ceiling, negative. *)
Definition clamped (pq : float * float) : bool :=
  isfinite (snd pq) && negb (snd pq >=? Fin 1000000000000)%F && (snd pq <? Fin 0)%F.

(** [absolute_max] of the call. *)
Definition absolute_max_of (Qmax : list float) : float :=
  match np_max Qmax with
  | Some max_observed =>
      let reasonable_max := (max_observed * Fin 10000)%F in
      if (Fin 10000000000 <? reasonable_max)%F then Fin 10000000000 else reasonable_max
  | None => NaN
  end.

Lemma P_lt_asym (a b : CurvePoint.t) : P_lt a b = true -> P_lt b a = false.
Proof. apply fltb_asym. Qed.

Lemma combine_fst_In {A B : Type} (x : A) (l : list A) (l' : list B) :
  In x (map fst (combine l l')) -> In x l.
Proof.
  revert l'. induction l as [|a l IH]; intros [|b l']; simpl; try tauto.
  intros [H|H]; [left; exact H | right; eapply IH, H].
Qed.

Lemma combine_fst_sorted {A B : Type} (R : A -> A -> Prop) (l : list A) (l' : list B) :
  StronglySorted R l -> StronglySorted R (map fst (combine l l')).
Proof.
  revert l'. induction l as [|a l IH]; intros [|b l'] H; simpl; try constructor.
  - inversion H; subst. apply IH. assumption.
  - inversion H as [|? ? _ Hf]; subst. rewrite Forall_forall in *.
    intros x Hx. apply Hf. eapply combine_fst_In, Hx.
Qed.

Lemma convert_display_range (p : float) :
  in_display_range p ->
  _convert_to_python_type (NpFloat p) = PyFloat p /\ percent_value (PyFloat p).
Proof.
  intros [q [-> Hq]]. split; [reflexivity|]. exists q. split; [reflexivity|lra].
Qed.

Lemma curve_loop_spec (pq : list (float * float)) :
  StronglySorted flt (map fst pq) ->
  Forall in_display_range (map fst pq) ->
  Forall (fun pt => exists p, In p (map fst pq) /\ CurvePoint.P_percent pt = PyFloat p)
         (fst (curve_loop pq))
  /\ StronglySorted P_increasing (fst (curve_loop pq))
  /\ Forall (fun pt => percent_value (CurvePoint.P_percent pt)) (fst (curve_loop pq))
  /\ Forall (fun pt => nonnegative_value (CurvePoint.Q pt)) (fst (curve_loop pq))
  /\ snd (curve_loop pq) = length (filter clamped pq).
Proof.
  induction pq as [|[p q] rest IH]; intros Hs Hr.
  - simpl. repeat split; constructor.
  - cbn [map fst] in Hs, Hr. inversion Hs as [|? ? Hs' Hlt]; subst.
    inversion Hr as [|? ? Hp Hr']; subst.
    destruct (IH Hs' Hr') as (Hin & Hss & HP & HQ & Hn).
    cbn [curve_loop]. destruct (curve_loop rest) as [curve num_clamped] eqn:E.
    cbn [fst snd] in *.
    assert (Hin' : Forall (fun pt => exists p0, In p0 (map fst ((p, q) :: rest))
                                      /\ CurvePoint.P_percent pt = PyFloat p0) curve).
    { eapply Forall_impl; [|exact Hin]. intros pt [p0 [H1 H2]].
      exists p0. split; [right; exact H1 | exact H2]. }
    cbn [filter]. unfold clamped at 1. cbn [snd].
    destruct (isfinite q) eqn:Ef; cbn [negb orb andb].
    + destruct (q >=? Fin 1000000000000)%F eqn:Eg; cbn [negb orb andb fst snd].
      * repeat split; assumption.
      * destruct (convert_display_range p Hp) as [Hc Hpv].
        repeat split.
        -- constructor; [|exact Hin'].
           exists p. split; [left; reflexivity | exact Hc].
        -- constructor; [exact Hss|].
           rewrite Forall_forall in *. intros pt Hpt.
           destruct (Hin pt Hpt) as [p0 [H1 H2]].
           unfold P_increasing, P_lt. cbn [curve_point CurvePoint.P_percent].
           rewrite Hc, H2. cbn [to_float]. apply Hlt, H1.
        -- constructor; [|exact HP]. cbn [curve_point CurvePoint.P_percent].
           rewrite Hc. exact Hpv.
        -- constructor; [|exact HQ]. cbn [curve_point CurvePoint.Q].
           destruct q as [q0| | |]; try discriminate.
           destruct (Fin q0 >? Fin 0)%F eqn:E0.
           ++ right. exists q0. split; [reflexivity|].
              unfold fgtb in E0. simpl in E0. q_prop. lra.
           ++ left. reflexivity.
        -- destruct (q <? Fin 0)%F; cbn [length]; rewrite Hn; reflexivity.
    + repeat split; assumption.
Qed.

Lemma sorted_by_P_percent_id (curve : list CurvePoint.t) :
  StronglySorted P_increasing curve ->
  Forall (fun pt => percent_value (CurvePoint.P_percent pt)) curve ->
  sorted_by_P_percent curve = Some curve.
Proof.
  intros Hs HP. unfold sorted_by_P_percent.
  destruct (length curve <=? 1)%nat; [reflexivity|].
  assert (E : forallb (fun pt => is_number (CurvePoint.P_percent pt)) curve = true).
  { apply forallb_forall. rewrite Forall_forall in HP. intros pt Hpt.
    destruct (HP pt Hpt) as [p [-> _]]. reflexivity. }
  rewrite E. f_equal. apply sort_by_id; [apply P_lt_asym | exact Hs].
Qed.

Section Curve.

Context {K : Numerics}.

Lemma keep_valid_spec (valid_mask : list bool) (p Qt : list float) :
  StronglySorted flt p -> Forall in_display_range p ->
  StronglySorted flt (fst (keep_valid valid_mask p Qt))
  /\ Forall in_display_range (fst (keep_valid valid_mask p Qt)).
Proof.
  intros Hs Hr. unfold keep_valid.
  destruct (forallb (fun b => b) valid_mask); cbn [fst].
  - split; assumption.
  - split; [apply mask_select_sorted | apply mask_select_Forall]; assumption.
Qed.

(** The positions left at line 675 are still strictly increasing positions
    of the display range, whatever the distribution returns. *)
Lemma theoretical_positions_spec (distribution_name : string) (d : DistributionBase)
    (params : list pyval) (mean_Q std_Q : float) :
  let pq := theoretical_quantiles distribution_name d params mean_Q std_Q p_percent_sampled in
  StronglySorted flt (fst pq) /\ Forall in_display_range (fst pq).
Proof.
  destruct sampled_positions_spec as [Hs Hr].
  unfold theoretical_quantiles.
  destruct (distribution_name =? "gumbel")%string.
  - destruct (use_direct_formula params mean_Q std_Q).
    + cbn [fst]. split; assumption.
    + apply keep_valid_spec; assumption.
  - apply keep_valid_spec; assumption.
Qed.

(** [params_dict] for a tuple that holds a location and a scale. *)
Definition params_dict_of (params : list pyval) : Parameters :=
  match extract_params params with
  | Some params_dict => params_dict
  | None => {| shape := PyNone; loc := PyNone; scale := PyNone |}
  end.

Lemma extract_params_some (params : list pyval) :
  (2 <= length params)%nat -> extract_params params = Some (params_dict_of params).
Proof.
  intro H. unfold params_dict_of.
  destruct params as [|a [|b [|c [|e params]]]]; simpl in H; try lia; reflexivity.
Qed.

(** The dictionary returned when the fit has succeeded. *)
Definition frequency_curve (env : Environment) (distribution_name : string)
    (d : DistributionBase) (params : list pyval) (Qmax : list float) : FrequencyCurve :=
  let mean_Q := np_mean Qmax in
  let std_Q := np_std_ddof1 Qmax in
  let pq := theoretical_quantiles distribution_name d params mean_Q std_Q p_percent_sampled in
  let loop := curve_loop (combine (fst pq) (snd pq)) in
  let n := length (py_sorted_reverse Qmax) in
  let cv := coefficient_of_variation mean_Q std_Q in
  let cs := scipy_skew Qmax in
  {| theoretical_curve := fst loop;
     empirical_points := empirical Qmax;
     confidence_intervals :=
       confidence_band env distribution_name d params Qmax (absolute_max_of Qmax) (fst pq);
     statistics := summary mean_Q std_Q cv cs n;
     parameters := params_dict_of params;
     distribution := distribution_name;
     quality_warnings := warnings distribution_name d params Qmax cv cs n (snd loop) |}.

Lemma theoretical_curve_spec (env : Environment) (distribution_name : string)
    (d : DistributionBase) (params : list pyval) (Qmax : list float) :
  let r := frequency_curve env distribution_name d params Qmax in
  StronglySorted P_increasing (theoretical_curve r)
  /\ Forall (fun pt => percent_value (CurvePoint.P_percent pt)) (theoretical_curve r)
  /\ Forall (fun pt => nonnegative_value (CurvePoint.Q pt)) (theoretical_curve r).
Proof.
  cbn zeta. unfold frequency_curve. cbn [theoretical_curve].
  set (pq := theoretical_quantiles _ _ _ _ _ _).
  destruct (theoretical_positions_spec distribution_name d params
              (np_mean Qmax) (np_std_ddof1 Qmax)) as [Hs Hr].
  fold pq in Hs, Hr.
  destruct (curve_loop_spec (combine (fst pq) (snd pq))) as (_ & H1 & H2 & H3 & _).
  - apply combine_fst_sorted, Hs.
  - rewrite Forall_forall in *. intros x Hx. apply Hr. eapply combine_fst_In, Hx.
  - auto.
Qed.

(** Once the parameters are fitted the call returns its dictionary: nothing
    after the fit can raise. *)
Lemma curve_result_returns (env : Environment) (distribution_name : string)
    (d : DistributionBase) (params : list pyval) (Qmax : list float) :
  (2 <= length params)%nat ->
  curve_result env distribution_name d params Qmax (absolute_max_of Qmax)
  = Result (frequency_curve env distribution_name d params Qmax).
Proof.
  intro Hlen.
  destruct (theoretical_curve_spec env distribution_name d params Qmax) as (Hs & HP & _).
  unfold curve_result. cbn zeta.
  unfold frequency_curve in Hs, HP. cbn [theoretical_curve] in Hs, HP.
  rewrite (sorted_by_P_percent_id _ Hs HP).
  rewrite (extract_params_some params Hlen). reflexivity.
Qed.

(** A fitted tuple holds at least a location and a scale. *)
Lemma fit_parameters_arity (d : DistributionBase) (distribution_name method : string)
    (Qmax : list float) (params : list pyval) :
  fit_parameters d distribution_name method Qmax = Some params ->
  (2 <= length params)%nat.
Proof.
  assert (Hv : forall ps, validate_params ps = Some params -> ps = params).
  { intros ps. unfold validate_params. destruct ps; [discriminate|].
    destruct (params_finite _); [|discriminate]. intros [= <-]. reflexivity. }
  assert (Hmle : option_bind (scipy_fit (dist d) Qmax) validate_params = Some params ->
                 (2 <= length params)%nat).
  { destruct (scipy_fit (dist d) Qmax) as [ps|] eqn:E; cbn [option_bind]; [|discriminate].
    intro H. apply Hv in H. subst ps. eapply scipy_fit_arity, E. }
  unfold fit_parameters. destruct (use_mom distribution_name method); [|exact Hmle].
  destruct (_fit_distribution_mom distribution_name Qmax) as [|[ps|]] eqn:E;
    [discriminate| |exact Hmle].
  intro H. apply Hv in H. subst ps. revert E. unfold _fit_distribution_mom.
  repeat match goal with
  | |- context [if ?c then _ else _] => destruct c
  | |- context [exn_bind ?e _] => destruct e; cbn [exn_bind]
  | |- context [match ?o with Some _ => _ | None => _ end] => destruct o
  end; intros [= <-] || discriminate; simpl; lia.
Qed.

End Curve.

(** ** Requests *)

Definition valid_methods : list string := ["auto"; "mom"; "mle"]%string.

(** A request that passes validation on a frame that holds the main column. *)
Definition well_formed_request {K : Numerics} (svc : DataService)
    (distribution_name agg_func method : string) (d : DistributionBase)
    (df : DataFrame) : Prop :=
  validate_agg_func agg_func = true
  /\ distributions distribution_name = Some d
  /\ existsb (String.eqb method) valid_methods = true
  /\ data svc = Some df
  /\ existsb (String.eqb (main_column svc)) (columns df) = true.

(** A well-formed request whose aggregated series keeps at least three
    finite positive values, [Qmax]. *)
Definition valid_request {K : Numerics} (svc : DataService)
    (distribution_name agg_func method : string) (d : DistributionBase)
    (Qmax : list float) : Prop :=
  exists df,
    well_formed_request svc distribution_name agg_func method d df
    /\ Qmax = valid_values (aggregated_series agg_func df)
    /\ (3 <= length Qmax)%nat.

Section Requests.

Context {K : Numerics}.

Lemma valid_values_nonempty (l : list float) :
  valid_values l <> [] -> filter isfinite l <> [].
Proof.
  unfold valid_values. intros H E. rewrite E in H. apply H. reflexivity.
Qed.

Lemma np_min_nonempty (l : list float) : l <> [] -> exists m, np_min l = Some m.
Proof. destruct l; [congruence|]. intros _. eexists. reflexivity. Qed.

Lemma np_max_nonempty (l : list float) : l <> [] -> exists m, np_max l = Some m.
Proof. destruct l; [congruence|]. intros _. eexists. reflexivity. Qed.

(** What [prepare_series] does on a well-formed request whose series keeps
    at least one valid value. *)
Lemma prepare_series_well_formed (svc : DataService)
    (distribution_name agg_func method : string) (d : DistributionBase) (df : DataFrame) :
  well_formed_request svc distribution_name agg_func method d df ->
  valid_values (aggregated_series agg_func df) <> [] ->
  prepare_series svc distribution_name agg_func method =
  let Qmax_filtered := valid_values (aggregated_series agg_func df) in
  if (length Qmax_filtered <? 3)%nat
  then Stop (HTTPException 400 (InsufficientData (length Qmax_filtered)))
  else Continue (d, Qmax_filtered).
Proof.
  intros (Hagg & Hd & Hm & Hdf & Hcol) Hne.
  unfold prepare_series. fold valid_methods.
  rewrite Hagg, Hd, Hm, Hdf, Hcol. cbn [negb].
  destruct (rows df) as [|row rest] eqn:Erows.
  - exfalso. apply Hne. unfold aggregated_series, duplicate_years.
    rewrite Erows. reflexivity.
  - pose proof (valid_values_nonempty _ Hne) as Hfin.
    destruct (np_min_nonempty _ Hfin) as [m Em]. rewrite Em.
    destruct (filter isfinite (aggregated_series agg_func df)) eqn:E1; [congruence|].
    cbn zeta.
    destruct (valid_values (aggregated_series agg_func df)) eqn:E2; [congruence|].
    reflexivity.
Qed.

Lemma prepare_series_valid (svc : DataService)
    (distribution_name agg_func method : string) (d : DistributionBase)
    (Qmax : list float) :
  valid_request svc distribution_name agg_func method d Qmax ->
  prepare_series svc distribution_name agg_func method = Continue (d, Qmax).
Proof.
  intros (df & Hwf & -> & Hlen).
  rewrite (prepare_series_well_formed _ _ _ _ _ _ Hwf).
  - cbn zeta. destruct (Nat.ltb_spec (length (valid_values (aggregated_series agg_func df))) 3);
      [lia | reflexivity].
  - intro E. rewrite E in Hlen. simpl in Hlen. lia.
Qed.

Lemma valid_request_nonempty (svc : DataService)
    (distribution_name agg_func method : string) (d : DistributionBase)
    (Qmax : list float) :
  valid_request svc distribution_name agg_func method d Qmax -> Qmax <> [].
Proof.
  intros (df & _ & _ & Hlen) E. rewrite E in Hlen. simpl in Hlen. lia.
Qed.

(** A valid request whose fit succeeds returns its dictionary. *)
Lemma compute_returns (env : Environment) (svc : DataService)
    (distribution_name agg_func method : string) (d : DistributionBase)
    (Qmax : list float) (params : list pyval) :
  valid_request svc distribution_name agg_func method d Qmax ->
  fit_parameters d distribution_name method Qmax = Some params ->
  compute_frequency_curve env svc distribution_name agg_func method
  = Result (frequency_curve env distribution_name d params Qmax).
Proof.
  intros Hv Hfit. unfold compute_frequency_curve.
  rewrite (prepare_series_valid _ _ _ _ _ _ Hv).
  pose proof (curve_result_returns env distribution_name d params Qmax
                (fit_parameters_arity _ _ _ _ _ Hfit)) as Hc.
  unfold absolute_max_of in Hc.
  destruct (np_max_nonempty Qmax (valid_request_nonempty _ _ _ _ _ _ Hv)) as [m Em].
  rewrite Em in *. rewrite Hfit. exact Hc.
Qed.


End Requests.

(** ** The executable instance satisfies the IEEE facts *)

Lemma demo_sqrt_finite (q : Q) :
  (0 <= q)%Q -> exists r, demo_sqrt (Fin q) = Fin r /\ (0 <= r)%Q.
Proof.
  intro H. unfold demo_sqrt.
  assert (E : Qltb q 0 = false) by (q_prop; exact H). rewrite E.
  eexists. split; [reflexivity|].
  rewrite Qred_correct. apply Qle_shift_div_l.
  - change 0%Q with (inject_Z 0). rewrite <- Zlt_Qlt. lia.
  - rewrite Qmult_0_l. change 0%Q with (inject_Z 0). rewrite <- Zle_Qle.
    apply Z.sqrt_nonneg.
Qed.

Lemma demo_sqrt_zero (q : Q) : (q == 0)%Q -> demo_sqrt (Fin q) = Fin 0.
Proof.
  intro H. unfold demo_sqrt.
  assert (E : Qltb q 0 = false) by (q_prop; lra). rewrite E.
  assert (Ea : Qnum q = 0).
  { destruct q as [a b]. unfold Qeq in H. simpl in *. lia. }
  rewrite Ea. replace (0 * QDen q * 10 ^ 16) with 0 by lia.
  change (Z.sqrt 0) with 0. apply f_equal.
  transitivity (Qred 0); [|reflexivity].
  apply Qred_complete. unfold Qdiv. apply Qmult_0_l.
Qed.

Lemma demo_fit_arity (d : scipy_dist) (data : list float) (params : list pyval) :
  demo_fit d data = Some params -> (2 <= length params)%nat.
Proof.
  unfold demo_fit. destruct data; [discriminate|].
  destruct (demo_loc_scale _). destruct d; intros [= <-]; simpl; lia.
Qed.

#[export] Instance demo_numerics : Numerics := {|
  np_sqrt := demo_sqrt;
  np_log := demo_log;
  np_log10 := demo_log10;
  np_exp := demo_exp;
  np_power10 := demo_power10;
  scipy_fit := demo_fit;
  scipy_ppf := demo_ppf;
  scipy_skew := fun _ => Fin 0;
  rng_choice := demo_choice;
  interp1d := demo_interp1d;
  groupby_agg := demo_groupby_agg;
  np_sqrt_finite := demo_sqrt_finite;
  np_sqrt_zero := demo_sqrt_zero;
  scipy_fit_arity := demo_fit_arity
|}.

(** ** Sample inputs *)

Definition frame (values : list float) : DataFrame :=
  {| columns := ["Year"; "Q"]%string;
     rows := combine (map Z.of_nat (seq 1990 (length values))) values |}.

Definition service (values : list float) : DataService :=
  {| data := Some (frame values); main_column := "Q"%string |}.

Definition sequential : Environment :=
  {| random_ints := map Z.of_nat (seq 0 1500); pool := PoolFailed |}.

(** Scenario 1 of the specification. *)
Definition scenario_1 : list float := [Fin 100; Fin 150; Fin 120; Fin 200; Fin 90].

Definition gumbel_base : DistributionBase := {| name := "Gumbel"; dist := gumbel_r |}.

(** ** Claims on validation and on the theoretical curve *)

(** C8.  A request that passes validation and whose aggregated series keeps
    one or two finite positive values is rejected with the client error
    (status 400) that reports insufficient data; no result is returned. *)
Theorem insufficient_data_rejected {K : Numerics} (env : Environment) (svc : DataService)
    (distribution_name agg_func method : string) (d : DistributionBase) (df : DataFrame) :
  well_formed_request svc distribution_name agg_func method d df ->
  (1 <= length (valid_values (aggregated_series agg_func df)) < 3)%nat ->
  compute_frequency_curve env svc distribution_name agg_func method
  = HTTPException 400
      (InsufficientData (length (valid_values (aggregated_series agg_func df)))).
Proof.
  intros Hwf [Hlo Hhi]. unfold compute_frequency_curve.
  rewrite (prepare_series_well_formed _ _ _ _ _ _ Hwf).
  - cbn zeta.
    destruct (Nat.ltb_spec (length (valid_values (aggregated_series agg_func df))) 3);
      [reflexivity | lia].
  - intro E. rewrite E in Hlo. simpl in Hlo. lia.
Qed.

Lemma insufficient_data_rejected_witness :
  compute_frequency_curve sequential (service [Fin 5; Fin 7]) "gumbel" "max" "auto"
  = HTTPException 400 (InsufficientData 2).
Proof.
  apply (insufficient_data_rejected sequential (service [Fin 5; Fin 7])
           "gumbel" "max" "auto" gumbel_base (frame [Fin 5; Fin 7])).
  - repeat split; reflexivity.
  - vm_compute. lia.
Defined.




(** The parameters of the moments fit of scenario 1. *)
Definition scenario_1_params : list pyval :=
  Eval vm_compute in
    match fit_parameters gumbel_base "gumbel" "auto" scenario_1 with
    | Some params => params
    | None => []
    end.

Lemma scenario_1_valid :
  valid_request (service scenario_1) "gumbel" "max" "auto" gumbel_base scenario_1.
Proof.
  exists (frame scenario_1). split; [repeat split; reflexivity|].
  split; [vm_compute; reflexivity | simpl; lia].
Qed.

Lemma scenario_1_fit :
  fit_parameters gumbel_base "gumbel" "auto" scenario_1 = Some scenario_1_params.
Proof. vm_compute. reflexivity. Qed.


(** ** Claims on the empirical points and on the fit check *)







(** The i-th plotting position (0-based index [i]) is [100 (i+1) / (n+1)]. *)
Lemma plotting_position (i n : nat) :
  (i < n)%nat ->
  exists p, (of_nat (S i) / of_nat (n + 1) * Fin 100)%F = Fin p
            /\ (p == 100 * inject_Z (Z.of_nat (i + 1)) / inject_Z (Z.of_nat (n + 1)))%Q.
Proof.
  intro Hi. unfold of_nat, of_Z. cbn [fdiv].
  assert (Hn : (0 < inject_Z (Z.of_nat (n + 1)))%Q).
  { change 0%Q with (inject_Z 0). rewrite <- Zlt_Qlt. lia. }
  assert (Hi0 : (0 < inject_Z (Z.of_nat (S i)))%Q).
  { change 0%Q with (inject_Z 0). rewrite <- Zlt_Qlt. lia. }
  assert (Hle : (inject_Z (Z.of_nat (S i)) <= inject_Z (Z.of_nat (n + 1)))%Q).
  { rewrite <- Zle_Qle. lia. }
  assert (E0 : Qeq_bool (inject_Z (Z.of_nat (n + 1))) 0 = false) by (q_prop; lra).
  rewrite E0.
  set (x := (inject_Z (Z.of_nat (S i)) / inject_Z (Z.of_nat (n + 1)))%Q).
  assert (Hx : (0 <= x <= 1)%Q).
  { unfold x. split.
    - apply Qle_shift_div_l; [exact Hn | lra].
    - apply Qle_shift_div_r; [exact Hn | lra]. }
  pose proof float_max_large as HM.
  rewrite (rnd_small x) by lra. cbn [fmul].
  pose proof (Qred_correct x) as Ex.
  rewrite (rnd_small (Qred x * 100)) by lra.
  eexists. split; [reflexivity|].
  rewrite Qred_correct, Ex. unfold x.
  replace (i + 1)%nat with (S i) by lia. field. lra.
Qed.

Section Empirical.

Context {K : Numerics}.


End Empirical.



(** Scenario 1: the five empirical points of the specification. *)
Example scenario_1_empirical :
  empirical scenario_1 =
  [ {| CurvePoint.P_percent := PyFloat (Fin (50 # 3)); CurvePoint.Q := PyFloat (Fin 200) |};
    {| CurvePoint.P_percent := PyFloat (Fin (100 # 3)); CurvePoint.Q := PyFloat (Fin 150) |};
    {| CurvePoint.P_percent := PyFloat (Fin 50); CurvePoint.Q := PyFloat (Fin 120) |};
    {| CurvePoint.P_percent := PyFloat (Fin (200 # 3)); CurvePoint.Q := PyFloat (Fin 100) |};
    {| CurvePoint.P_percent := PyFloat (Fin (250 # 3)); CurvePoint.Q := PyFloat (Fin 90) |} ].
Proof. vm_compute. reflexivity. Qed.








(** ** Claims on the fitting block *)

Section Fitting.

Context {K : Numerics}.


End Fitting.






(** ** Degenerate and unconverted parameters *)

Definition constant_sample : list float := [Fin 5; Fin 5; Fin 5].

Lemma rnd_zero (q : Q) : (q == 0)%Q -> rnd q = Fin 0.
Proof. intro H. rewrite (rnd_eq q 0 H). reflexivity. Qed.

(** C9, what the code does.  On three equal values with "gumbel" and method
    "auto" (the moments estimator, zero sample variance) the call does not
    fail: it returns a result fitted with the degenerate parameters
    loc = 5, scale = 0. *)
Theorem zero_variance_gumbel_returns {K : Numerics} (env : Environment) :
  exists r,
    compute_frequency_curve env (service constant_sample) "gumbel" "max" "auto" = Result r
    /\ parameters r
       = {| shape := PyNone; loc := NpFloat (Fin 5); scale := NpFloat (Fin 0) |}.
Proof.
  assert (Hv : valid_request (service constant_sample) "gumbel" "max" "auto"
                 gumbel_base constant_sample).
  { exists (frame constant_sample). split; [repeat split; reflexivity|].
    split; [vm_compute; reflexivity | simpl; lia]. }
  assert (Hstd : np_std_ddof1 constant_sample = Fin 0).
  { unfold np_std_ddof1.
    replace (np_var_ddof1 constant_sample) with (Fin 0) by (vm_compute; reflexivity).
    apply np_sqrt_zero. reflexivity. }
  assert (Hfit : fit_parameters gumbel_base "gumbel" "auto" constant_sample
                 = Some [NpFloat (Fin 5); NpFloat (Fin 0)]).
  { unfold fit_parameters. cbn [use_mom String.eqb Ascii.eqb Bool.eqb].
    unfold _fit_distribution_mom. cbn [String.eqb Ascii.eqb Bool.eqb].
    rewrite Hstd.
    destruct (np_sqrt_finite 6) as [r6 [E6 H6]]; [lra|]. rewrite E6.
    cbn [fmul]. rewrite (rnd_zero (0 * r6)) by lra.
    replace (np_mean constant_sample) with (Fin 5) by (vm_compute; reflexivity).
    vm_compute. reflexivity. }
  eexists. split; [apply (compute_returns env _ _ _ _ _ _ _ Hv Hfit)|].
  reflexivity.
Qed.

Lemma convert_scalar_native (v : pyval) :
  match v with
  | NpArray _ | PyList _ | PyTuple _ | PyDict _ | PyStr _ => True
  | _ => native_finite_or_none (_convert_to_python_type v)
  end.
Proof.
  destruct v as [|z|x|s|z|x|l|l|l|dct]; simpl; auto; destruct x; simpl; auto.
Qed.

(** C10, what the code does.  For "gumbel" fitted by moments the call
    returns its dictionary with [statistics] converted to native finite
    numbers or None, but with [parameters] holding the NumPy scalars of the
    fit as they are: they are not passed through the conversion. *)
Theorem parameters_not_converted {K : Numerics} (env : Environment) (svc : DataService)
    (agg_func : string) (d : DistributionBase) (Qmax : list float) (params : list pyval) :
  valid_request svc "gumbel" agg_func "auto" d Qmax ->
  fit_parameters d "gumbel" "auto" Qmax = Some params ->
  exists r x y,
    compute_frequency_curve env svc "gumbel" agg_func "auto" = Result r
    /\ native_finite_or_none (Statistics.mean (statistics r))
    /\ native_finite_or_none (Statistics.std (statistics r))
    /\ native_finite_or_none (Statistics.cs (statistics r))
    /\ native_finite_or_none (Statistics.n (statistics r))
    /\ parameters r = {| shape := PyNone; loc := NpFloat x; scale := NpFloat y |}
    /\ (native_finite_or_none (loc (parameters r)) -> False).
Proof.
  intros Hv Hfit.
  assert (Hp : exists x y, params = [NpFloat x; NpFloat y]).
  { unfold fit_parameters in Hfit. cbn [use_mom String.eqb Ascii.eqb Bool.eqb] in Hfit.
    unfold _fit_distribution_mom in Hfit. cbn [String.eqb Ascii.eqb Bool.eqb] in Hfit.
    unfold validate_params in Hfit.
    destruct (params_finite _) in Hfit; [|discriminate].
    injection Hfit as <-. eauto. }
  destruct Hp as (x & y & ->).
  exists (frequency_curve env "gumbel" d [NpFloat x; NpFloat y] Qmax), x, y.
  split; [apply (compute_returns env _ _ _ _ _ _ _ Hv Hfit)|].
  unfold frequency_curve. cbn [statistics parameters summary Statistics.mean
    Statistics.std Statistics.cs Statistics.n params_dict_of extract_params loc].
  repeat split.
  - apply (convert_scalar_native (PyFloat _)).
  - apply (convert_scalar_native (PyFloat _)).
  - apply (convert_scalar_native (PyFloat _)).
  - intro H. exact H.
Qed.

Lemma parameters_not_converted_witness :
  exists r x y,
    compute_frequency_curve sequential (service scenario_1) "gumbel" "max" "auto" = Result r
    /\ native_finite_or_none (Statistics.mean (statistics r))
    /\ native_finite_or_none (Statistics.std (statistics r))
    /\ native_finite_or_none (Statistics.cs (statistics r))
    /\ native_finite_or_none (Statistics.n (statistics r))
    /\ parameters r = {| shape := PyNone; loc := NpFloat x; scale := NpFloat y |}
    /\ (native_finite_or_none (loc (parameters r)) -> False).
Proof.
  exact (parameters_not_converted sequential (service scenario_1) "max" gumbel_base
           scenario_1 scenario_1_params scenario_1_valid scenario_1_fit).
Defined.

(** ** Claims on the confidence band *)




Section BandGate.

Context {K : Numerics}.




End BandGate.



(** ** Determinism of the bootstrap aggregation *)

Lemma feq_refl (x : float) : feq x x.
Proof. destruct x; simpl; auto. reflexivity. Qed.

Lemma feq_sym (x y : float) : feq x y -> feq y x.
Proof. destruct x, y; simpl; auto. intro H. symmetry. exact H. Qed.

Lemma feq_trans (x y z : float) : feq x y -> feq y z -> feq x z.
Proof.
  destruct x, y, z; simpl; auto; try tauto. intros H1 H2. rewrite H1. exact H2.
Qed.

Lemma fltb_feq (x x' y y' : float) : feq x x' -> feq y y' -> fltb x y = fltb x' y'.
Proof.
  destruct x, x', y, y'; simpl; try tauto. intros H1 H2.
  unfold Qltb. f_equal.
  destruct (Qle_bool q1 q) eqn:A, (Qle_bool q2 q0) eqn:B; try reflexivity; q_prop; lra.
Qed.

Lemma fneg_feq (x x' : float) : feq x x' -> fneg x = fneg x'.
Proof.
  destruct x, x'; simpl; try tauto. intro H. apply rnd_eq. rewrite H. reflexivity.
Qed.

Lemma fadd_feq (x x' y y' : float) : feq x x' -> feq y y' -> fadd x y = fadd x' y'.
Proof.
  destruct x, x', y, y'; simpl; try tauto. intros H1 H2.
  apply rnd_eq. rewrite H1, H2. reflexivity.
Qed.

Lemma fsub_feq (x x' y y' : float) : feq x x' -> feq y y' -> fsub x y = fsub x' y'.
Proof.
  intros H1 H2. unfold fsub. rewrite (fneg_feq y y' H2).
  apply fadd_feq; [exact H1 | apply feq_refl].
Qed.

Lemma fltb_total_feq (x y : float) :
  isnan x = false -> isnan y = false ->
  fltb x y = false -> fltb y x = false -> feq x y.
Proof. intros Hx Hy H1 H2. float_cases. Qed.

Definition pointwise_feq : list float -> list float -> Prop := Forall2 feq.

Lemma pointwise_feq_refl (l : list float) : pointwise_feq l l.
Proof. induction l; constructor; auto using feq_refl. Qed.

Lemma pointwise_feq_trans (l1 l2 l3 : list float) :
  pointwise_feq l1 l2 -> pointwise_feq l2 l3 -> pointwise_feq l1 l3.
Proof.
  intro H. revert l3. induction H as [|a b l1 l2 Hab _ IH]; intros l3 H3.
  - inversion H3. constructor.
  - inversion H3; subst. constructor; [eapply feq_trans; eassumption | apply IH; assumption].
Qed.

Lemma insert_pointwise_feq (x : float) (s s' : list float) :
  pointwise_feq s s' -> pointwise_feq (insert_by fltb x s) (insert_by fltb x s').
Proof.
  induction 1 as [|y y' s s' Hy Hs IH]; simpl.
  - apply pointwise_feq_refl.
  - rewrite (fltb_feq y y' x x Hy (feq_refl x)).
    destruct (y' <? x)%F.
    + constructor; assumption.
    + constructor; [apply feq_refl|]. constructor; assumption.
Qed.

(** Two insertions commute, up to the representation of equal values. *)
Lemma insert_insert (x y : float) (s : list float) :
  isnan x = false -> isnan y = false ->
  pointwise_feq (insert_by fltb y (insert_by fltb x s))
                (insert_by fltb x (insert_by fltb y s)).
Proof.
  intros Hx Hy. induction s as [|z s IH]; simpl.
  - destruct (x <? y)%F eqn:A; destruct (y <? x)%F eqn:B; simpl.
    + rewrite (fltb_asym _ _ A) in B. discriminate.
    + apply pointwise_feq_refl.
    + apply pointwise_feq_refl.
    + repeat constructor; [apply feq_sym|]; apply fltb_total_feq; assumption.
  - destruct (z <? x)%F eqn:A; destruct (z <? y)%F eqn:B; simpl; rewrite ?A, ?B.
    + constructor; [apply feq_refl | exact IH].
    + assert (E : (y <? x)%F = true).
      { eapply fleb_fltb_trans; [|exact A]. apply fltb_false_fleb; auto.
        apply (fltb_notnan _ _ A). }
      rewrite E. simpl. rewrite ?A. apply pointwise_feq_refl.
    + assert (E : (x <? y)%F = true).
      { eapply fleb_fltb_trans; [|exact B]. apply fltb_false_fleb; auto.
        apply (fltb_notnan _ _ B). }
      rewrite E. simpl. rewrite ?B. apply pointwise_feq_refl.
    + destruct (x <? y)%F eqn:C; destruct (y <? x)%F eqn:D; simpl; rewrite ?A, ?B.
      * rewrite (fltb_asym _ _ C) in D. discriminate.
      * apply pointwise_feq_refl.
      * apply pointwise_feq_refl.
      * constructor; [apply feq_sym; apply fltb_total_feq; assumption|].
        constructor; [apply fltb_total_feq; assumption|].
        apply pointwise_feq_refl.
Qed.

(** Sorting is insensitive to the order of its input. *)
Lemma sort_permutation (l l' : list float) :
  Permutation l l' -> Forall (fun x => isnan x = false) l ->
  pointwise_feq (sort_by fltb l) (sort_by fltb l').
Proof.
  induction 1 as [|x l l' Hp IH|x y l|l l' l'' H1 IH1 H2 IH2]; intro Hn.
  - constructor.
  - simpl. apply insert_pointwise_feq, IH. inversion Hn; assumption.
  - simpl. inversion Hn as [|? ? Hy Hn']; subst. inversion Hn' as [|? ? Hx _]; subst.
    apply insert_insert; assumption.
  - eapply pointwise_feq_trans; [apply IH1, Hn|]. apply IH2.
    rewrite Forall_forall in *. intros x Hx. apply Hn.
    eapply Permutation_in; [apply Permutation_sym, H1 | exact Hx].
Qed.

Lemma Permutation_filter_both {A : Type} (f : A -> bool) (l l' : list A) :
  Permutation l l' -> Permutation (filter f l) (filter f l').
Proof.
  induction 1 as [|x l l' Hp IH|x y l|l l' l'' H1 IH1 H2 IH2]; simpl.
  - constructor.
  - destruct (f x); [apply perm_skip|]; exact IH.
  - destruct (f x), (f y); try apply Permutation_refl. apply perm_swap.
  - eapply Permutation_trans; eassumption.
Qed.

Lemma pointwise_feq_nth (s s' : list float) (k : nat) :
  pointwise_feq s s' -> feq (nth k s NaN) (nth k s' NaN).
Proof.
  intro H. revert k. induction H as [|a b s s' Hab _ IH]; intros [|k]; simpl; auto.
Qed.

Lemma percentile_linear_feq (s s' : list float) (q : Q) :
  pointwise_feq s s' -> percentile_linear s q = percentile_linear s' q.
Proof.
  intro H. pose proof (Forall2_length H) as Hlen.
  unfold percentile_linear. rewrite <- Hlen.
  destruct H as [|a b s s' Hab Hs]; [reflexivity|].
  assert (H : pointwise_feq (a :: s) (b :: s')) by (constructor; assumption).
  cbn zeta.
  set (previous := Qfloor _).
  set (next := Z.min _ _).
  pose proof (pointwise_feq_nth _ _ (Z.to_nat previous) H) as Ha.
  pose proof (pointwise_feq_nth _ _ (Z.to_nat next) H) as Hb.
  rewrite (fsub_feq _ _ _ _ Hb Ha).
  destruct (_ >=? Fin 0.5)%F.
  - apply fsub_feq; [exact Hb | apply feq_refl].
  - apply fadd_feq; [exact Ha | apply feq_refl].
Qed.

Lemma nanpercentile_1d_permutation (column column' : list float) (q : Q) :
  Permutation column column' ->
  nanpercentile_1d column q = nanpercentile_1d column' q.
Proof.
  intro H. unfold nanpercentile_1d. apply percentile_linear_feq.
  apply sort_permutation.
  - apply Permutation_filter_both, H.
  - apply Forall_forall. intros x Hx. apply filter_In in Hx.
    destruct Hx as [_ Hx]. apply negb_true_iff in Hx. exact Hx.
Qed.

Lemma hd_length_same (m : nat) (rows : list (list float)) :
  Forall (fun row => length row = m) rows -> rows <> [] -> length (hd [] rows) = m.
Proof. destruct rows; [congruence|]. intros H _. inversion H; assumption. Qed.

Lemma nanpercentile_axis0_permutation (m : nat) (rows rows' : list (list float)) (q : Q) :
  Permutation rows rows' ->
  Forall (fun row => length row = m) rows ->
  nanpercentile_axis0 rows q = nanpercentile_axis0 rows' q.
Proof.
  intros Hp Hm. unfold nanpercentile_axis0.
  assert (Hm' : Forall (fun row => length row = m) rows').
  { rewrite Forall_forall in *. intros x Hx. apply Hm.
    eapply Permutation_in; [apply Permutation_sym, Hp | exact Hx]. }
  assert (E : length (hd [] rows) = length (hd [] rows')).
  { destruct rows as [|r rows].
    - apply Permutation_nil in Hp. subst. reflexivity.
    - rewrite (hd_length_same m (r :: rows)) by (auto; congruence).
      destruct rows' as [|r' rows'].
      + apply Permutation_sym, Permutation_nil in Hp. discriminate.
      + rewrite (hd_length_same m (r' :: rows')) by (auto; congruence). reflexivity. }
  rewrite E. apply map_ext. intro k.
  apply nanpercentile_1d_permutation. apply Permutation_map, Hp.
Qed.

Lemma map_nth_seq {A : Type} (l : list A) (d : A) :
  map (fun i => nth i l d) (seq 0 (length l)) = l.
Proof.
  induction l as [|x l IH]; [reflexivity|].
  cbn [length seq map nth]. f_equal.
  rewrite <- seq_shift, map_map. exact IH.
Qed.

(** Whatever the order in which the futures complete, the successful
    iterations are the same, up to their order. *)
Lemma gather_permutation (run : PoolRun) (results : list (option (list float))) :
  completion_order_ok run -> Permutation (gather run results) (successful results).
Proof.
  destruct run as [order|]; simpl; intro H; [|apply Permutation_refl].
  unfold successful. apply Permutation_flat_map.
  rewrite <- (map_nth_seq results None) at 2.
  apply Permutation_map, H.
Qed.

Section Determinism.

Context {K : Numerics}.

Lemma worker_length (seed : Z) (Qmax : list float) (n : nat) (distribution_name : string)
    (p_values_for_ci : list float) (ref : option (list float)) (absolute_max : float)
    (row : list float) :
  _bootstrap_iteration_worker seed Qmax n distribution_name p_values_for_ci ref absolute_max
  = Some row ->
  length row = length p_values_for_ci.
Proof.
  unfold _bootstrap_iteration_worker.
  destruct (dist_map distribution_name); [|discriminate].
  destruct (scipy_fit _ _); [|discriminate].
  destruct ref as [ref|].
  - destruct (_ <? _)%nat; [discriminate|].
    destruct (_ >? _)%F; [discriminate|].
    intros [= <-]. rewrite !length_map. reflexivity.
  - intros [= <-]. rewrite !length_map. reflexivity.
Qed.

Lemma successful_lengths (m : nat) (results : list (option (list float))) :
  Forall (fun r => forall row, r = Some row -> length row = m) results ->
  Forall (fun row => length row = m) (successful results).
Proof.
  induction 1 as [|r results Hr _ IH]; simpl; [constructor|].
  destruct r as [row|]; simpl; [constructor; auto | exact IH].
Qed.

Lemma bootstrap_quantiles_deterministic (env1 env2 : Environment)
    (distribution_name : string) (d : DistributionBase) (params : list pyval)
    (Qmax : list float) (absolute_max : float) (p_percent_fixed : list float) :
  random_ints env1 = random_ints env2 ->
  completion_order_ok (pool env1) -> completion_order_ok (pool env2) ->
  let rows1 := bootstrap_quantiles env1 distribution_name d params Qmax absolute_max
                 p_percent_fixed in
  let rows2 := bootstrap_quantiles env2 distribution_name d params Qmax absolute_max
                 p_percent_fixed in
  Permutation rows1 rows2
  /\ Forall (fun row => length row = length (ci_positions p_percent_fixed)) rows1.
Proof.
  intros Hseed H1 H2. cbn zeta. unfold bootstrap_quantiles. rewrite Hseed.
  set (results := map _ (firstn _ (random_ints env2))).
  split.
  - eapply Permutation_trans; [apply gather_permutation, H1|].
    apply Permutation_sym, gather_permutation, H2.
  - assert (Hs : Forall (fun row => length row = length (ci_positions p_percent_fixed))
                   (successful results)).
    { apply successful_lengths. apply Forall_forall. intros r Hr row ->.
      unfold results in Hr. apply in_map_iff in Hr. destruct Hr as [seed [Hw _]].
      apply worker_length in Hw. rewrite length_map in Hw. exact Hw. }
    rewrite Forall_forall in *. intros row Hrow. apply Hs.
    eapply Permutation_in; [apply gather_permutation, H1 | exact Hrow].
Qed.

Lemma ci_bounds_permutation (m : nat) (distribution_name : string) (theo : list float)
    (rows rows' : list (list float)) :
  Permutation rows rows' ->
  Forall (fun row => length row = m) rows ->
  ci_bounds distribution_name theo rows = ci_bounds distribution_name theo rows'.
Proof.
  intros Hp Hm. unfold ci_bounds.
  rewrite (nanpercentile_axis0_permutation m rows rows' 2.5 Hp Hm).
  rewrite (nanpercentile_axis0_permutation m rows rows' 97.5 Hp Hm).
  reflexivity.
Qed.

Lemma confidence_band_deterministic (env1 env2 : Environment)
    (distribution_name : string) (d : DistributionBase) (params : list pyval)
    (Qmax : list float) (absolute_max : float) (p_percent_fixed : list float) :
  random_ints env1 = random_ints env2 ->
  completion_order_ok (pool env1) -> completion_order_ok (pool env2) ->
  confidence_band env1 distribution_name d params Qmax absolute_max p_percent_fixed
  = confidence_band env2 distribution_name d params Qmax absolute_max p_percent_fixed.
Proof.
  intros Hseed H1 H2.
  destruct (bootstrap_quantiles_deterministic env1 env2 distribution_name d params Qmax
              absolute_max p_percent_fixed Hseed H1 H2) as [Hp Hm].
  unfold confidence_band.
  destruct (allow_ci _ _); [|reflexivity].
  destruct (np_min _); [|reflexivity]. destruct (np_max _); [|reflexivity].
  destruct (_ <? 5)%nat; [reflexivity|].
  set (rows1 := bootstrap_quantiles env1 _ _ _ _ _ _) in *.
  set (rows2 := bootstrap_quantiles env2 _ _ _ _ _ _) in *.
  rewrite (ci_bounds_permutation _ distribution_name _ rows1 rows2 Hp Hm).
  destruct rows1 as [|r1 rows1]; destruct rows2 as [|r2 rows2]; try reflexivity.
  - apply Permutation_nil in Hp. discriminate.
  - apply Permutation_sym, Permutation_nil in Hp. discriminate.
Qed.

End Determinism.

Definition reversed_completion : Environment :=
  {| random_ints := map Z.of_nat (seq 0 1500);
     pool := PoolCompleted (fun k => rev (seq 0 k)) |}.

(** C6.  Two invocations with the same request, the same data and the same
    bootstrap seeds return the same outcome, confidence intervals included,
    whatever the order in which the pool completes the iterations and
    whether or not the sequential loop replaces the pool. *)
Theorem fixed_seed_determinism {K : Numerics} (env1 env2 : Environment) (svc : DataService)
    (distribution_name agg_func method : string) :
  random_ints env1 = random_ints env2 ->
  completion_order_ok (pool env1) ->
  completion_order_ok (pool env2) ->
  compute_frequency_curve env1 svc distribution_name agg_func method
  = compute_frequency_curve env2 svc distribution_name agg_func method.
Proof.
  intros Hseed H1 H2. unfold compute_frequency_curve.
  destruct (prepare_series svc distribution_name agg_func method) as [o|[d Qmax]];
    [reflexivity|].
  destruct (np_max Qmax); [|reflexivity].
  destruct (fit_parameters d distribution_name method Qmax) as [params|]; [|reflexivity].
  unfold curve_result. cbn zeta.
  destruct (sorted_by_P_percent _); [|reflexivity].
  destruct (extract_params params); [|reflexivity].
  rewrite (confidence_band_deterministic env1 env2 _ _ _ _ _ _ Hseed H1 H2).
  reflexivity.
Qed.

Lemma fixed_seed_determinism_witness :
  compute_frequency_curve sequential (service scenario_1) "gumbel" "max" "auto"
  = compute_frequency_curve reversed_completion (service scenario_1) "gumbel" "max" "auto".
Proof.
  apply (fixed_seed_determinism sequential reversed_completion (service scenario_1)
           "gumbel" "max" "auto").
  - reflexivity.
  - exact I.
  - intro k. apply Permutation_sym, Permutation_rev.
Defined.

(** ** The band keeps its lower bound below its upper bound *)

(** Two band points at the same probability, the first strictly below the
    second. *)
Definition below (a b : point) : Prop :=
  fst a = fst b /\ (snd a <? snd b)%F = true.

Definition aligned : list point -> list point -> Prop := Forall2 below.

Lemma safe_pairs_aligned (common_p : list float) (lower_points upper_points : list point)
    (temp_lower temp_upper : list point) :
  safe_pairs common_p lower_points upper_points = Some (temp_lower, temp_upper) ->
  aligned temp_lower temp_upper.
Proof.
  revert temp_lower temp_upper.
  induction common_p as [|p rest IH]; intros tl tu; cbn [safe_pairs].
  - intros [= <- <-]. constructor.
  - destruct (dict_lookup p lower_points) as [lower_q|]; [|discriminate].
    destruct (dict_lookup p upper_points) as [upper_q|]; [|discriminate].
    destruct (safe_pairs rest lower_points upper_points) as [[tl' tu']|]; [|discriminate].
    destruct ((lower_q <? upper_q)%F && (lower_q >=? Fin 0)%F
              && isfinite lower_q && isfinite upper_q) eqn:E.
    + intros [= <- <-]. constructor; [|apply IH; reflexivity].
      split; [reflexivity|]. cbn [snd].
      apply andb_true_iff in E. destruct E as [E _].
      apply andb_true_iff in E. destruct E as [E _].
      apply andb_true_iff in E. destruct E as [E _]. exact E.
    + intros [= <- <-]. apply IH. reflexivity.
Qed.

Lemma Forall2_nth_error {A B : Type} (R : A -> B -> Prop) (l : list A) (l' : list B)
    (i : nat) (a : A) (b : B) :
  Forall2 R l l' -> nth_error l i = Some a -> nth_error l' i = Some b -> R a b.
Proof.
  intro H. revert i. induction H as [|x y l l' Hxy _ IH]; intros [|i]; simpl;
    try discriminate.
  - intros [= <-] [= <-]. exact Hxy.
  - apply IH.
Qed.

Lemma select_indices_aligned (idx : list nat) (l u l' u' : list point) :
  aligned l u ->
  select_indices idx l = Some l' -> select_indices idx u = Some u' ->
  aligned l' u'.
Proof.
  intro H. revert l' u'. induction idx as [|i idx IH]; intros l' u'; cbn [select_indices].
  - intros [= <-] [= <-]. constructor.
  - destruct (nth_error l i) as [a|] eqn:Ea; [|discriminate].
    destruct (select_indices idx l) as [r|]; [|discriminate].
    destruct (nth_error u i) as [b|] eqn:Eb; [|discriminate].
    destruct (select_indices idx u) as [r'|]; [|discriminate].
    intros [= <-] [= <-]. constructor.
    + eapply Forall2_nth_error; eassumption.
    + apply IH; reflexivity.
Qed.

Lemma insert_aligned (a b : point) (l u : list point) :
  below a b -> aligned l u ->
  aligned (insert_by point_lt a l) (insert_by point_lt b u).
Proof.
  intros Hab H. induction H as [|x y l u Hxy Hlu IH]; simpl.
  - constructor; [assumption | constructor].
  - assert (E : point_lt x a = point_lt y b).
    { unfold point_lt. destruct Hab as [-> _], Hxy as [-> _]. reflexivity. }
    rewrite E. destruct (point_lt y b).
    + constructor; assumption.
    + constructor; [assumption|]. constructor; assumption.
Qed.

Lemma sort_aligned (l u : list point) :
  aligned l u -> aligned (sort_by point_lt l) (sort_by point_lt u).
Proof.
  induction 1 as [|a b l u Hab _ IH]; simpl; [constructor|].
  apply insert_aligned; assumption.
Qed.

Lemma dict_lookup_aligned_none (k : float) (l u : list point) :
  aligned l u -> (dict_lookup k l = None <-> dict_lookup k u = None).
Proof.
  induction 1 as [|[p a] [p' b] l u [Hp _] _ IH]; simpl; [tauto|].
  cbn [fst] in Hp. subst p'.
  destruct (dict_lookup k l), (dict_lookup k u);
    try (destruct IH as [I1 I2]; (specialize (I1 eq_refl) || specialize (I2 eq_refl));
         discriminate).
  - split; discriminate.
  - destruct (feqb p k); split; congruence.
Qed.

Lemma dict_lookup_aligned (k : float) (l u : list point) (a b : float) :
  aligned l u ->
  dict_lookup k l = Some a -> dict_lookup k u = Some b ->
  (a <? b)%F = true.
Proof.
  intro H. revert a b. induction H as [|[p x] [p' y] l u [Hp Hxy] Hlu IH]; intros a b;
    simpl; [discriminate|].
  cbn [fst snd] in Hp, Hxy. subst p'.
  pose proof (dict_lookup_aligned_none k l u Hlu) as Hn.
  destruct (dict_lookup k l) as [v|] eqn:El, (dict_lookup k u) as [w|] eqn:Eu.
  - intros [= <-] [= <-]. apply IH; reflexivity.
  - destruct Hn as [_ Hn]. specialize (Hn eq_refl). discriminate.
  - destruct Hn as [Hn _]. specialize (Hn eq_refl). discriminate.
  - destruct (feqb p k); [|discriminate]. intros [= <-] [= <-]. exact Hxy.
Qed.

Lemma points_of_keys_aligned (keys : list float) (l u l' u' : list point) :
  aligned l u ->
  points_of_keys keys l = Some l' -> points_of_keys keys u = Some u' ->
  aligned l' u'.
Proof.
  intro H. unfold points_of_keys. revert l' u'.
  induction keys as [|p keys IH]; intros l' u'; cbn [option_map_all].
  - intros [= <-] [= <-]. constructor.
  - destruct (dict_lookup p l) as [a|] eqn:Ea; cbn [option_map]; [|discriminate].
    destruct (option_map_all _ keys) as [r|]; [|discriminate].
    destruct (dict_lookup p u) as [b|] eqn:Eb; cbn [option_map]; [|discriminate].
    destruct (option_map_all _ keys) as [r'|]; [|discriminate].
    intros [= <-] [= <-]. constructor.
    + split; [reflexivity|]. cbn [snd]. eapply dict_lookup_aligned; eassumption.
    + apply IH; reflexivity.
Qed.

(** The points kept by the validity test of the interpolation are aligned. *)
Lemma interpolated_points_aligned (p lo up : list float) :
  aligned
    (points_where p lo
       (map (fun lu => let (l, u) := lu : float * float in
                       (l <? u)%F && (l >=? Fin 0)%F && isfinite l && isfinite u)
            (combine lo up)))
    (points_where p up
       (map (fun lu => let (l, u) := lu : float * float in
                       (l <? u)%F && (l >=? Fin 0)%F && isfinite l && isfinite u)
            (combine lo up))).
Proof.
  unfold points_where. revert lo up.
  induction p as [|x p IH]; intros lo up; [constructor|].
  destruct lo as [|a lo]; [destruct up; simpl; constructor|].
  destruct up as [|b up]; [simpl; constructor|].
  cbn [combine map mask_select].
  destruct ((a <? b)%F && (a >=? Fin 0)%F && isfinite a && isfinite b) eqn:E.
  - constructor; [|apply IH].
    split; [reflexivity|]. cbn [snd].
    apply andb_true_iff in E. destruct E as [E _].
    apply andb_true_iff in E. destruct E as [E _].
    apply andb_true_iff in E. destruct E as [E _]. exact E.
  - apply IH.
Qed.

Section Band.

Context {K : Numerics}.

Lemma compact_aligned (min_p_empirical max_p_empirical : float)
    (temp_lower temp_upper final_lower final_upper : list point) :
  aligned temp_lower temp_upper ->
  compact min_p_empirical max_p_empirical temp_lower temp_upper
  = Some (final_lower, final_upper) ->
  aligned final_lower final_upper.
Proof.
  intro H. unfold compact. destruct (300 <? length temp_lower)%nat.
  - destruct (select_indices _ temp_lower) as [l|] eqn:El; [|discriminate].
    destruct (select_indices _ temp_upper) as [u|] eqn:Eu; [|discriminate].
    intros [= <- <-]. eapply select_indices_aligned; eassumption.
  - intros [= <- <-]. exact H.
Qed.

Lemma interpolate_band_aligned (common_p_sorted lower_q_array upper_q_array p_interp : list float)
    (l u : list point) :
  interpolate_band common_p_sorted lower_q_array upper_q_array p_interp = Some (l, u) ->
  aligned l u.
Proof.
  unfold interpolate_band. cbn zeta.
  set (lo := map (interp1d common_p_sorted lower_q_array) p_interp).
  set (up := map (interp1d common_p_sorted upper_q_array) p_interp).
  destruct (points_of_keys _ (points_where p_interp lo _)) as [l'|] eqn:El; [|discriminate].
  destruct (points_of_keys _ (points_where p_interp up _)) as [u'|] eqn:Eu; [|discriminate].
  intros [= <- <-].
  eapply points_of_keys_aligned; [apply (interpolated_points_aligned p_interp lo up) | |];
    eassumption.
Qed.

Lemma fill_gaps_aligned (final_lower final_upper l u : list point) :
  aligned final_lower final_upper ->
  fill_gaps final_lower final_upper = Some (l, u) ->
  aligned l u.
Proof.
  intro H. unfold fill_gaps.
  destruct ((2 <? length final_lower)%nat && (2 <? length final_upper)%nat);
    [|intros [= <- <-]; exact H].
  cbn zeta.
  set (common := common_keys final_lower final_upper).
  assert (Horig : forall l u,
             match points_of_keys common final_lower, points_of_keys common final_upper with
             | Some l0, Some u0 => Some (l0, u0)
             | _, _ => None
             end = Some (l, u) -> aligned l u).
  { intros l0 u0.
    destruct (points_of_keys common final_lower) as [l1|] eqn:El; [|discriminate].
    destruct (points_of_keys common final_upper) as [u1|] eqn:Eu; [|discriminate].
    intros [= <- <-]. eapply points_of_keys_aligned; eassumption. }
  destruct (2 <? length common)%nat; [|apply Horig].
  destruct (existsb _ (np_diff common)); [|apply Horig].
  destruct (np_arange _ _ _) as [p_interp|]; [|discriminate].
  destruct (option_map_all _ common) as [lower_q_array|]; [|discriminate].
  destruct (option_map_all _ common) as [upper_q_array|]; [|discriminate].
  destruct (interpolate_band common lower_q_array upper_q_array p_interp)
    as [[l1 u1]|] eqn:Ei; [|apply Horig].
  intros [= <- <-]. eapply interpolate_band_aligned, Ei.
Qed.

Lemma assemble_band_aligned (min_p_empirical max_p_empirical : float)
    (p_percent_for_ci : list float) (bounds : list (float * float))
    (valid_mask : list bool) (band : ConfidenceIntervals) :
  assemble_band min_p_empirical max_p_empirical p_percent_for_ci bounds valid_mask
  = Some band ->
  exists l u, aligned l u /\ lower band = map band_point l /\ upper band = map band_point u.
Proof.
  unfold assemble_band. cbn zeta.
  destruct (safe_pairs _ _ _) as [[temp_lower temp_upper]|] eqn:Es; cbn [option_bind];
    [|discriminate].
  cbn [fst snd].
  destruct (compact _ _ temp_lower temp_upper) as [[fl fu]|] eqn:Ec; cbn [option_bind];
    [|discriminate].
  cbn [fst snd].
  destruct (fill_gaps _ _) as [[l u]|] eqn:Ef; cbn [option_bind]; [|discriminate].
  intros [= <-]. exists l, u. cbn [lower upper fst snd].
  split; [|split; reflexivity].
  eapply fill_gaps_aligned; [|exact Ef].
  apply sort_aligned.
  eapply compact_aligned; [|exact Ec].
  eapply safe_pairs_aligned, Es.
Qed.

Lemma confidence_band_aligned (env : Environment) (distribution_name : string)
    (d : DistributionBase) (params : list pyval) (Qmax : list float)
    (absolute_max : float) (p_percent_fixed : list float) (band : ConfidenceIntervals) :
  confidence_band env distribution_name d params Qmax absolute_max p_percent_fixed
  = Some band ->
  exists l u, aligned l u /\ lower band = map band_point l /\ upper band = map band_point u.
Proof.
  unfold confidence_band.
  destruct (allow_ci _ _); [|discriminate].
  destruct (np_min _); [|discriminate]. destruct (np_max _); [|discriminate].
  destruct (_ <? 5)%nat; [discriminate|].
  destruct (bootstrap_quantiles _ _ _ _ _ _ _); [discriminate|].
  destruct (_ <? _)%F; [discriminate|].
  apply assemble_band_aligned.
Qed.

End Band.

(** ** The probabilities of a band are pairwise distinct *)

Section StrictSort.

Context {A : Type} (lt : A -> A -> bool) (D : A -> A -> Prop).

Hypothesis lt_trans : forall x y z, lt x y = true -> lt y z = true -> lt x z = true.
Hypothesis D_total : forall x y, D x y -> lt y x = false -> lt x y = true.




End StrictSort.















Section BandKeys.

Context {K : Numerics}.





End BandKeys.




(** The swap pass leaves no position with its lower bound above its upper
    bound. *)
Lemma swap_inverted_ordered (lower_ci upper_ci : float) :
  (fst (swap_inverted (lower_ci, upper_ci)) >? snd (swap_inverted (lower_ci, upper_ci)))%F
  = false.
Proof.
  unfold swap_inverted. destruct (lower_ci >? upper_ci)%F eqn:E; cbn [fst snd].
  - unfold fgtb in *. apply fltb_asym, E.
  - exact E.
Qed.



(** ** The scenarios of the specification and checks of single steps *)

(** Scenario 2: an unsupported distribution name is rejected. *)
Example scenario_2_unsupported :
  compute_frequency_curve sequential (service scenario_1) "weibull" "max" "auto"
  = HTTPException 400 UnsupportedDistribution.
Proof. vm_compute. reflexivity. Qed.

Example invalid_aggregation_rejected :
  compute_frequency_curve sequential (service scenario_1) "gumbel" "median" "auto"
  = HTTPException 400 InvalidAggregationFunction.
Proof. vm_compute. reflexivity. Qed.

Example no_data_returns_empty_curves :
  compute_frequency_curve sequential {| data := None; main_column := "Q" |}
    "gumbel" "max" "auto"
  = EmptyCurves.
Proof. vm_compute. reflexivity. Qed.

Example nothing_finite_is_a_processing_error :
  compute_frequency_curve sequential (service [NaN; PInf]) "gumbel" "max" "auto"
  = HTTPException 400 DataProcessingError.
Proof. vm_compute. reflexivity. Qed.

Example nothing_positive_is_rejected :
  compute_frequency_curve sequential (service [Fin (-1); Fin 0]) "gumbel" "max" "auto"
  = HTTPException 400 EmptyAfterFiltering.
Proof. vm_compute. reflexivity. Qed.

Example convert_nested :
  _convert_to_python_type
    (PyDict [("a", NpArray [NpFloat NaN; NpFloat (Fin 1); NpInt 3]);
             ("b", PyTuple [PyFloat PInf; PyStr "x"])]%string)
  = PyDict [("a", PyList [PyNone; PyFloat (Fin 1); PyInt 3]);
            ("b", PyList [PyNone; PyStr "x"])]%string.
Proof. reflexivity. Qed.

(** Three bootstrap rows over three positions; the third position is NaN
    in the first row. *)
Definition sample_rows : list (list float) :=
  [[Fin 10; Fin 40; NaN]; [Fin 12; Fin 30; Fin 7]; [Fin 14; Fin 35; Fin 9]].

Example percentiles_of_sample_rows :
  nanpercentile_axis0 sample_rows 2.5 = [Fin 10.1; Fin (121 # 4); Fin (141 # 20)]
  /\ nanpercentile_axis0 sample_rows 97.5 = [Fin 13.9; Fin (159 # 4); Fin (179 # 20)].
Proof. split; vm_compute; reflexivity. Qed.

(** The pool may hand the rows back in any order; the percentiles do not
    change. *)
Example completion_order_is_irrelevant :
  gather (PoolCompleted (fun k => rev (seq 0 k))) (map Some sample_rows)
  = rev sample_rows
  /\ nanpercentile_axis0 (rev sample_rows) 2.5 = nanpercentile_axis0 sample_rows 2.5.
Proof. split; vm_compute; reflexivity. Qed.

(** The Gumbel adjustment widens a band narrower than 30% of the
    theoretical value and leaves a wider one alone. *)
Example widen_narrow_band :
  widen (Fin 100) (Fin 95) (Fin 105) = (Fin 85, Fin 115)
  /\ widen (Fin 100) (Fin 60) (Fin 95) = (Fin 60, Fin 95).
Proof. split; vm_compute; reflexivity. Qed.

(** A band assembled from four positions: the position whose bounds are
    equal and the position that is not valid are left out. *)
Example assemble_small_band :
  assemble_band (K := demo_numerics) (Fin 5) (Fin 95)
    [Fin 1; Fin 2; Fin 3; Fin 4]
    [(Fin 10, Fin 20); (Fin 30, Fin 30); (NaN, Fin 3); (Fin 5, Fin 6)]
    [true; true; false; true]
  = Some {| lower := [ {| CurvePoint.P_percent := PyFloat (Fin 1);
                          CurvePoint.Q := PyFloat (Fin 10) |};
                       {| CurvePoint.P_percent := PyFloat (Fin 4);
                          CurvePoint.Q := PyFloat (Fin 5) |} ];
            upper := [ {| CurvePoint.P_percent := PyFloat (Fin 1);
                          CurvePoint.Q := PyFloat (Fin 20) |};
                       {| CurvePoint.P_percent := PyFloat (Fin 4);
                          CurvePoint.Q := PyFloat (Fin 6) |} ] |}.
Proof. vm_compute. reflexivity. Qed.

Local Open Scope string_scope.

(** * Further properties of the analysis code

    The rest of this development covers the code around the frequency curve:
    the conversion of the returned values, the helpers of helpers.py, the
    bootstrap worker, the other outcomes of [compute_frequency_curve], the
    router that calls it, the chart service that reads its result, and the
    upload path of data_service.py that builds the frame it works on. *)

(** ** [_convert_to_python_type] on nested values *)


(** Induction on Python values that reaches the items of the containers. *)
Section PyvalInduction.

Variable P : pyval -> Prop.

Hypothesis HNone : P PyNone.
Hypothesis HInt : forall z, P (PyInt z).
Hypothesis HFloat : forall x, P (PyFloat x).
Hypothesis HStr : forall s, P (PyStr s).
Hypothesis HNpInt : forall z, P (NpInt z).
Hypothesis HNpFloat : forall x, P (NpFloat x).
Hypothesis HArray : forall l, Forall P l -> P (NpArray l).
Hypothesis HList : forall l, Forall P l -> P (PyList l).
Hypothesis HTuple : forall l, Forall P l -> P (PyTuple l).
Hypothesis HDict : forall d, Forall (fun kv => P (snd kv)) d -> P (PyDict d).

Fixpoint pyval_nested_ind (v : pyval) : P v :=
  let items :=
    fix items (l : list pyval) : Forall P l :=
      match l with
      | [] => Forall_nil P
      | x :: l' => Forall_cons x (pyval_nested_ind x) (items l')
      end in
  let entries :=
    fix entries (d : list (string * pyval)) : Forall (fun kv => P (snd kv)) d :=
      match d with
      | [] => Forall_nil _
      | kv :: d' => Forall_cons kv (pyval_nested_ind (snd kv)) (entries d')
      end in
  match v with
  | PyNone => HNone
  | PyInt z => HInt z
  | PyFloat x => HFloat x
  | PyStr s => HStr s
  | NpInt z => HNpInt z
  | NpFloat x => HNpFloat x
  | NpArray l => HArray l (items l)
  | PyList l => HList l (items l)
  | PyTuple l => HTuple l (items l)
  | PyDict d => HDict d (entries d)
  end.

End PyvalInduction.





Lemma convert_scalar_twice (x : float) :
  _convert_to_python_type (if isnan x || isinf x then PyNone else PyFloat x)
  = (if isnan x || isinf x then PyNone else PyFloat x).
Proof. destruct x; reflexivity. Qed.

(** X2.  Converting twice is converting once: the conversion leaves its own
    output unchanged. *)
Theorem convert_idempotent (value : pyval) :
  _convert_to_python_type (_convert_to_python_type value)
  = _convert_to_python_type value.
Proof.
  assert (Hl : forall l,
             Forall (fun v => _convert_to_python_type (_convert_to_python_type v)
                              = _convert_to_python_type v) l ->
             _convert_to_python_type (PyList (map _convert_to_python_type l))
             = PyList (map _convert_to_python_type l)).
  { intros l H. cbn [_convert_to_python_type]. f_equal. rewrite map_map.
    apply map_ext_Forall. exact H. }
  induction value using pyval_nested_ind;
    try reflexivity; try apply convert_scalar_twice;
    try (cbn [_convert_to_python_type]; apply Hl; assumption).
  cbn [_convert_to_python_type]. f_equal. rewrite map_map.
  apply map_ext_Forall. revert H. apply Forall_impl.
  intros kv E. cbn [fst snd]. rewrite E. reflexivity.
Qed.

(** ** [extract_params] *)



(** X3.  Whatever the length of the fitted tuple, the location and the scale of
    the returned dictionary are its last two entries; the shape is [None]
    for two entries, the first entry for three, and the tuple of all the
    entries before the location otherwise. *)
Theorem extract_params_last_two (params : list pyval) (p : Parameters) :
  extract_params params = Some p ->
  let n := length params in
  (2 <= n)%nat
  /\ loc p = nth (n - 2) params PyNone
  /\ scale p = nth (n - 1) params PyNone
  /\ shape p = match n with
               | 2%nat => PyNone
               | 3%nat => nth 0 params PyNone
               | _ => PyTuple (firstn (n - 2) params)
               end.
Proof.
  destruct params as [|a [|b [|c [|e params]]]]; simpl;
    try discriminate; intros [= <-]; simpl; repeat split; try lia.
Qed.

Lemma extract_params_last_two_witness :
  let params := [NpFloat (Fin 1); PyInt 0; NpFloat (Fin 2); NpFloat (Fin 3)] in
  let p := {| shape := PyTuple [NpFloat (Fin 1); PyInt 0];
              loc := NpFloat (Fin 2); scale := NpFloat (Fin 3) |} in
  (2 <= 4)%nat
  /\ loc p = nth 2 params PyNone
  /\ scale p = nth 3 params PyNone
  /\ shape p = PyTuple (firstn 2 params).
Proof.
  exact (extract_params_last_two
           [NpFloat (Fin 1); PyInt 0; NpFloat (Fin 2); NpFloat (Fin 3)]
           {| shape := PyTuple [NpFloat (Fin 1); PyInt 0];
              loc := NpFloat (Fin 2); scale := NpFloat (Fin 3) |} eq_refl).
Defined.

(** ** [Weibull] *)

Lemma StronglySorted_by_index {A : Type} (R : A -> A -> Prop) (l : list A) :
  (forall i j a b, (i < j)%nat -> nth_error l i = Some a -> nth_error l j = Some b -> R a b) ->
  StronglySorted R l.
Proof.
  induction l as [|x l IH]; intro H; constructor.
  - apply IH. intros i j a b Hij Ha Hb. apply (H (S i) (S j) a b); [lia | exact Ha | exact Hb].
  - apply Forall_forall. intros y Hy. destruct (In_nth_error _ _ Hy) as [k Ek].
    apply (H 0%nat (S k) x y); [lia | reflexivity | exact Ek].
Qed.

Section PlottingPositions.

Context {K : Numerics}.

Lemma Weibull_nth (data : list float) (i : nat) :
  (i < length data)%nat ->
  exists p, nth_error (Weibull data) i = Some (Fin p)
            /\ (p == 100 * inject_Z (Z.of_nat (i + 1))
                    / inject_Z (Z.of_nat (length data + 1)))%Q.
Proof.
  intro Hi. unfold Weibull.
  destruct (plotting_position i (length data) Hi) as [p [E Hp]].
  exists p. split; [|exact Hp].
  rewrite nth_error_map, nth_error_seq.
  destruct (Nat.ltb_spec i (length data)); [|lia]. simpl. rewrite <- E. reflexivity.
Qed.

End PlottingPositions.

(** X4.  The plotting positions of a series of n values are n percentages, each
    strictly between 0 and 100, in strictly increasing order; they depend
    on the number of values only. *)
Theorem Weibull_positions {K : Numerics} (data : list float) :
  length (Weibull data) = length data
  /\ StronglySorted flt (Weibull data)
  /\ Forall (fun p => exists q, p = Fin q /\ (0 < q < 100)%Q) (Weibull data).
Proof.
  assert (Hlen : length (Weibull data) = length data).
  { unfold Weibull. rewrite length_map, length_seq. reflexivity. }
  assert (Hpos : forall i, (i < length data)%nat ->
            (0 < inject_Z (Z.of_nat (length data + 1)))%Q).
  { intros. change 0%Q with (inject_Z 0). rewrite <- Zlt_Qlt. lia. }
  split; [exact Hlen|]. split.
  - apply StronglySorted_by_index. intros i j a b Hij Ha Hb.
    assert (Hj : (j < length data)%nat).
    { rewrite <- Hlen. apply nth_error_Some. congruence. }
    assert (Hi : (i < length data)%nat) by lia.
    destruct (Weibull_nth data i Hi) as [p [Ep Hp]].
    destruct (Weibull_nth data j Hj) as [q [Eq Hq]].
    rewrite Ep in Ha. rewrite Eq in Hb. injection Ha as <-. injection Hb as <-.
    unfold flt. cbn [fltb]. q_prop. rewrite Hp, Hq.
    pose proof (Hpos i Hi) as Hn.
    assert (Hlt : (inject_Z (Z.of_nat (i + 1)) < inject_Z (Z.of_nat (j + 1)))%Q).
    { rewrite <- Zlt_Qlt. lia. }
    apply Qlt_shift_div_l; [exact Hn|].
    unfold Qdiv. rewrite <- Qmult_assoc.
    setoid_replace (/ inject_Z (Z.of_nat (length data + 1))
                    * inject_Z (Z.of_nat (length data + 1)))%Q with 1%Q
      by (field; lra).
    lra.
  - apply Forall_forall. intros x Hx.
    destruct (In_nth_error _ _ Hx) as [i Ei].
    assert (Hi : (i < length data)%nat).
    { rewrite <- Hlen. apply nth_error_Some. congruence. }
    destruct (Weibull_nth data i Hi) as [p [Ep Hp]].
    rewrite Ep in Ei. injection Ei as <-. exists p. split; [reflexivity|].
    pose proof (Hpos i Hi) as Hn.
    assert (H1 : (0 < inject_Z (Z.of_nat (i + 1)))%Q).
    { change 0%Q with (inject_Z 0). rewrite <- Zlt_Qlt. lia. }
    assert (H2 : (inject_Z (Z.of_nat (i + 1)) < inject_Z (Z.of_nat (length data + 1)))%Q).
    { rewrite <- Zlt_Qlt. lia. }
    rewrite Hp. split.
    + apply Qlt_shift_div_l; [exact Hn | lra].
    + apply Qlt_shift_div_r; [exact Hn | lra].
Qed.

(** ** [_bootstrap_iteration_worker] *)




(** ** Other outcomes of [compute_frequency_curve] *)

Section Outcomes.

Context {K : Numerics}.

Lemma curve_result_not_empty (env : Environment) (distribution_name : string)
    (d : DistributionBase) (params : list pyval) (Qmax : list float) (absolute_max : float) :
  curve_result env distribution_name d params Qmax absolute_max <> EmptyCurves.
Proof.
  unfold curve_result. cbn zeta.
  destruct (sorted_by_P_percent _); [|discriminate].
  destruct (extract_params params); discriminate.
Qed.

End Outcomes.

(** X6.  The empty result (two empty lists) is returned exactly when the
    request passes validation and no data is loaded or the frame has no
    row.  A frame whose values are all NaN or infinite never gives the
    empty result: the check [Qmax.size == 0] of line 419 is never reached
    with an empty series, because [np.min] has already raised on it. *)
Theorem empty_result_only_without_data {K : Numerics} (env : Environment)
    (svc : DataService) (distribution_name agg_func method : string) :
  compute_frequency_curve env svc distribution_name agg_func method = EmptyCurves
  <-> validate_agg_func agg_func = true
      /\ distributions distribution_name <> None
      /\ existsb (String.eqb method) valid_methods = true
      /\ (data svc = None \/ exists df, data svc = Some df /\ rows df = []).
Proof.
  unfold compute_frequency_curve, prepare_series. fold valid_methods.
  destruct (validate_agg_func agg_func); cbn [negb];
    [|split; [discriminate | intros [H _]; discriminate]].
  destruct (distributions distribution_name) as [d|];
    [|split; [discriminate | intros (_ & H & _); congruence]].
  destruct (existsb (String.eqb method) valid_methods); cbn [negb];
    [|split; [discriminate | intros (_ & _ & H & _); discriminate]].
  destruct (data svc) as [df|].
  2:{ split; [|reflexivity]. intros _. repeat split; [discriminate | left; reflexivity]. }
  destruct (rows df) as [|row rest] eqn:Erows.
  { split; [|reflexivity]. intros _.
    repeat split; [discriminate | right; exists df; split; [reflexivity | exact Erows]]. }
  assert (Hno : ~ (Some df = None \/ exists df0, Some df = Some df0 /\ rows df0 = [])).
  { intros [H|[df0 [[= <-] H]]]; [discriminate | congruence]. }
  split; [|intros (_ & _ & _ & H); contradiction].
  intro H. exfalso.
  destruct (existsb _ (columns df)); cbn [negb] in H; [|discriminate].
  destruct (filter isfinite (aggregated_series agg_func df)) as [|x Qmax] eqn:EQ;
    [discriminate|].
  cbn [np_min] in H. cbn zeta in H.
  destruct (valid_values (aggregated_series agg_func df)) as [|y Qf] eqn:EV; [discriminate|].
  destruct (_ <? 3)%nat; [discriminate|].
  destruct (np_max (y :: Qf)); [|discriminate].
  destruct (fit_parameters _ _ _ _); [|discriminate].
  exact (curve_result_not_empty _ _ _ _ _ _ H).
Qed.

(** X7.  When every year occurs once in the frame the values are used as they
    are: the outcome is the same for every accepted aggregation function. *)
Theorem aggregation_ignored_without_duplicates {K : Numerics} (env : Environment)
    (svc : DataService) (df : DataFrame)
    (distribution_name agg_func agg_func' method : string) :
  data svc = Some df ->
  duplicate_years df = false ->
  validate_agg_func agg_func = true ->
  validate_agg_func agg_func' = true ->
  compute_frequency_curve env svc distribution_name agg_func method
  = compute_frequency_curve env svc distribution_name agg_func' method.
Proof.
  intros Hdf Hdup H1 H2.
  unfold compute_frequency_curve, prepare_series, aggregated_series.
  rewrite Hdf, Hdup, H1, H2. reflexivity.
Qed.

Lemma aggregation_ignored_without_duplicates_witness :
  compute_frequency_curve sequential (service scenario_1) "gumbel" "max" "auto"
  = compute_frequency_curve sequential (service scenario_1) "gumbel" "sum" "auto".
Proof.
  apply (aggregation_ignored_without_duplicates sequential (service scenario_1)
           (frame scenario_1) "gumbel" "max" "sum" "auto");
    reflexivity.
Defined.

(** *** Rows that do not count *)

(** A row whose value is finite and strictly positive. *)
Definition valid_row (row : Z * float) : bool :=
  isfinite (snd row) && (snd row >? Fin 0)%F.

(** The frame without its rows that hold NaN, an infinity, zero or a
    negative value. *)
Definition drop_invalid_rows (df : DataFrame) : DataFrame :=
  {| columns := columns df; rows := filter valid_row (rows df) |}.

Lemma nodup_length_le {A : Type} (dec : forall x y : A, {x = y} + {x <> y}) (l : list A) :
  (length (nodup dec l) <= length l)%nat.
Proof.
  induction l as [|x l IH]; simpl; [lia|].
  destruct (in_dec dec x l); simpl; lia.
Qed.

Lemma nodup_length_NoDup {A : Type} (dec : forall x y : A, {x = y} + {x <> y}) (l : list A) :
  length (nodup dec l) = length l <-> NoDup l.
Proof.
  split.
  - induction l as [|x l IH]; simpl; [constructor|].
    pose proof (nodup_length_le dec l) as Hle.
    destruct (in_dec dec x l); simpl; intro H; [lia|].
    constructor; [assumption | apply IH; lia].
  - intro H. rewrite (nodup_fixed_point dec H). reflexivity.
Qed.

Lemma duplicate_years_NoDup (df : DataFrame) :
  duplicate_years df = false <-> NoDup (map fst (rows df)).
Proof.
  unfold duplicate_years. rewrite negb_false_iff, Nat.eqb_eq.
  rewrite <- (nodup_length_NoDup Z.eq_dec), length_map. reflexivity.
Qed.

Lemma NoDup_map_filter {A B : Type} (f : A -> B) (g : A -> bool) (l : list A) :
  NoDup (map f l) -> NoDup (map f (filter g l)).
Proof.
  induction l as [|x l IH]; simpl; [auto|].
  intro H. inversion H as [|? ? Hx Hl]; subst.
  destruct (g x); simpl; [|auto].
  constructor; [|auto].
  intro Hin. apply Hx. apply in_map_iff in Hin. destruct Hin as [y [E Hy]].
  apply in_map_iff. exists y. split; [exact E|]. apply filter_In in Hy. tauto.
Qed.

Lemma valid_values_filter (l : list float) :
  valid_values l = filter (fun x => isfinite x && (x >? Fin 0)%F) l.
Proof.
  unfold valid_values. induction l as [|x l IH]; [reflexivity|].
  cbn [filter]. destruct (isfinite x) eqn:Ef; cbn [filter andb]; rewrite ?Ef; cbn [andb].
  - destruct (x >? Fin 0)%F; rewrite IH; reflexivity.
  - exact IH.
Qed.

Lemma valid_values_of_valid_rows (rs : list (Z * float)) :
  valid_values (map snd (filter valid_row rs)) = valid_values (map snd rs)
  /\ valid_values (map snd rs) = map snd (filter valid_row rs).
Proof.
  rewrite !valid_values_filter. unfold valid_row.
  induction rs as [|[y x] rs [IH1 IH2]]; [split; reflexivity|].
  cbn [filter map snd].
  destruct (isfinite x && (x >? Fin 0)%F) eqn:E; cbn [filter map snd]; rewrite ?E.
  - rewrite IH1, IH2. split; reflexivity.
  - split; assumption.
Qed.

(** X8.  Rows that hold NaN, an infinity, zero or a negative value do not count:
    when every year occurs once and at least one row holds a valid value,
    the outcome is the one of the frame without those rows. *)
Theorem invalid_rows_ignored {K : Numerics} (env : Environment) (svc : DataService)
    (df : DataFrame) (distribution_name agg_func method : string) :
  data svc = Some df ->
  duplicate_years df = false ->
  filter valid_row (rows df) <> [] ->
  compute_frequency_curve env svc distribution_name agg_func method
  = compute_frequency_curve env
      {| data := Some (drop_invalid_rows df); main_column := main_column svc |}
      distribution_name agg_func method.
Proof.
  intros Hdf Hdup Hne.
  assert (Hdup' : duplicate_years (drop_invalid_rows df) = false).
  { apply duplicate_years_NoDup. apply duplicate_years_NoDup in Hdup.
    unfold drop_invalid_rows. cbn [rows]. apply NoDup_map_filter, Hdup. }
  destruct (valid_values_of_valid_rows (rows df)) as [E1 E2].
  assert (Hv : valid_values (map snd (rows df)) <> []).
  { rewrite E2. intro E. apply Hne. apply map_eq_nil in E. exact E. }
  assert (Hv' : valid_values (map snd (filter valid_row (rows df))) <> [])
    by (rewrite E1; exact Hv).
  pose proof (valid_values_nonempty _ Hv) as Hf.
  pose proof (valid_values_nonempty _ Hv') as Hf'.
  unfold compute_frequency_curve, prepare_series, aggregated_series.
  cbn [data main_column]. rewrite Hdf, Hdup, Hdup'.
  change (rows (drop_invalid_rows df)) with (filter valid_row (rows df)).
  change (columns (drop_invalid_rows df)) with (columns df).
  destruct (validate_agg_func agg_func); cbn [negb]; [|reflexivity].
  destruct (distributions distribution_name) as [d|]; [|reflexivity].
  destruct (existsb (String.eqb method) _); cbn [negb]; [|reflexivity].
  destruct (rows df) as [|r0 rs] eqn:Erows; [exfalso; apply Hne; reflexivity|].
  destruct (filter valid_row (r0 :: rs)) as [|r1 rs'] eqn:Erows'; [congruence|].
  destruct (existsb (String.eqb (main_column svc)) (columns df)); cbn [negb]; [|reflexivity].
  rewrite E1.
  destruct (filter isfinite (map snd (r0 :: rs))) as [|a l]; [congruence|].
  destruct (filter isfinite (map snd (r1 :: rs'))) as [|a' l']; [congruence|].
  reflexivity.
Qed.

Lemma invalid_rows_ignored_witness :
  compute_frequency_curve sequential
    (service [Fin 100; NaN; Fin 150; Fin (-3); Fin 120; Fin 0; Fin 90; PInf])
    "gumbel" "max" "auto"
  = compute_frequency_curve sequential
      {| data := Some (drop_invalid_rows
                         (frame [Fin 100; NaN; Fin 150; Fin (-3); Fin 120; Fin 0; Fin 90; PInf]));
         main_column := "Q" |}
      "gumbel" "max" "auto".
Proof.
  apply (invalid_rows_ignored sequential
           (service [Fin 100; NaN; Fin 150; Fin (-3); Fin 120; Fin 0; Fin 90; PInf])
           (frame [Fin 100; NaN; Fin 150; Fin (-3); Fin 120; Fin 0; Fin 90; PInf])
           "gumbel" "max" "auto").
  - reflexivity.
  - reflexivity.
  - vm_compute. discriminate.
Defined.

(** *** The fitting method *)

Section Methods.

Context {K : Numerics}.

Lemma prepare_series_method (svc : DataService)
    (distribution_name agg_func method method' : string) :
  existsb (String.eqb method) valid_methods = true ->
  existsb (String.eqb method') valid_methods = true ->
  prepare_series svc distribution_name agg_func method
  = prepare_series svc distribution_name agg_func method'.
Proof.
  intros H1 H2. unfold prepare_series. fold valid_methods. rewrite H1, H2. reflexivity.
Qed.

Lemma compute_method (env : Environment) (svc : DataService)
    (distribution_name agg_func method method' : string) :
  existsb (String.eqb method) valid_methods = true ->
  existsb (String.eqb method') valid_methods = true ->
  (forall d Qmax, fit_parameters d distribution_name method Qmax
                  = fit_parameters d distribution_name method' Qmax) ->
  compute_frequency_curve env svc distribution_name agg_func method
  = compute_frequency_curve env svc distribution_name agg_func method'.
Proof.
  intros H1 H2 Hfit. unfold compute_frequency_curve.
  rewrite (prepare_series_method svc distribution_name agg_func method method' H1 H2).
  destruct (prepare_series _ _ _ _) as [o|[d Qmax]]; [reflexivity|].
  rewrite Hfit. reflexivity.
Qed.

(** The families for which [_fit_distribution_mom] has no estimator. *)
Lemma no_moments_estimator (distribution_name : string) (Qmax : list float) :
  In distribution_name ["pearson3"; "genextreme"; "genpareto"; "frechet"]%string ->
  _fit_distribution_mom distribution_name Qmax = Returned None.
Proof.
  intros [<-|[<-|[<-|[<-|[]]]]]; try reflexivity.
  unfold _fit_distribution_mom. cbn [String.eqb Ascii.eqb Bool.eqb].
  repeat match goal with
  | |- context [if ?c then _ else _] => destruct c
  end; reflexivity.
Qed.

End Methods.

(** X9.  Method "auto" is the moments method for "gumbel" and maximum
    likelihood for every other distribution: the whole outcome of the call
    is the one of that method. *)
Theorem auto_method {K : Numerics} (env : Environment) (svc : DataService)
    (distribution_name agg_func : string) :
  compute_frequency_curve env svc distribution_name agg_func "auto"
  = compute_frequency_curve env svc distribution_name agg_func
      (if (distribution_name =? "gumbel")%string then "mom" else "mle").
Proof.
  apply compute_method.
  - reflexivity.
  - destruct (distribution_name =? "gumbel")%string; reflexivity.
  - intros d Qmax. unfold fit_parameters, use_mom.
    destruct (distribution_name =? "gumbel")%string; reflexivity.
Qed.

(** X10.  For "pearson3", "genextreme", "genpareto" and "frechet" the moments
    method is maximum likelihood under another name: [_fit_distribution_mom]
    never returns parameters for them, so method "mom" gives the outcome of
    method "mle". *)
Theorem moments_method_unavailable {K : Numerics} (env : Environment) (svc : DataService)
    (distribution_name agg_func : string) :
  In distribution_name ["pearson3"; "genextreme"; "genpareto"; "frechet"]%string ->
  compute_frequency_curve env svc distribution_name agg_func "mom"
  = compute_frequency_curve env svc distribution_name agg_func "mle".
Proof.
  intro Hin. apply compute_method; try reflexivity.
  intros d Qmax. unfold fit_parameters, use_mom. cbn [String.eqb Ascii.eqb Bool.eqb].
  rewrite (no_moments_estimator distribution_name Qmax Hin). reflexivity.
Qed.

Lemma moments_method_unavailable_witness :
  compute_frequency_curve sequential (service scenario_1) "pearson3" "max" "mom"
  = compute_frequency_curve sequential (service scenario_1) "pearson3" "max" "mle".
Proof.
  apply (moments_method_unavailable sequential (service scenario_1) "pearson3" "max").
  simpl. auto.
Defined.

(** *** Statistics, warnings and parameters of a result *)

Section Diagnostics.

Context {K : Numerics}.



End Diagnostics.








Section Size.

Context {K : Numerics}.



End Size.



Section FittedParameters.

Context {K : Numerics}.



End FittedParameters.



(** *** Zero sample variance *)



Section ZeroVariance.

Context {K : Numerics}.



End ZeroVariance.



Section VarianceGuard.

Context {K : Numerics}.


End VarianceGuard.



(** ** The router (routers/analysis_router.py) *)

Definition valid_agg_funcs : list string := ["max"; "min"; "mean"; "sum"].

(** [valid_models], the allow-list repeated in the endpoints; the list
    [all_distributions] of [precompute_all_distributions] is the same. *)
Definition valid_models : list string :=
  ["gumbel"; "lognorm"; "gamma"; "logistic"; "expon";
   "genextreme"; "genpareto"; "frechet"; "pearson3"].

(** The HTTPException(400) raised by the router itself, by its message. *)
Inductive RouterDetail : Type :=
| InvalidAggFunc          (* "Hàm tổng hợp ... không hợp lệ" *)
| InvalidFittingMethod    (* "Phương pháp fitting ... không hợp lệ" *)
| UnsupportedModel.       (* "Mô hình ... không được hỗ trợ" *)

(** What an endpoint answers: an error of the router's own checks, or
    whatever the service returned or raised. *)
Inductive Response : Type :=
| Rejected (status_code : Z) (detail : RouterDetail)
| FromService (o : Outcome).

(** [_validate_frequency_curve_params]: [None] when the call returns. *)
Definition _validate_frequency_curve_params (agg_func method : string)
  : option RouterDetail :=
  if negb (existsb (String.eqb agg_func) valid_agg_funcs) then Some InvalidAggFunc
  else if negb (existsb (String.eqb method) ["auto"; "mom"; "mle"])
       then Some InvalidFittingMethod
       else None.

(** [_handle_frequency_curve_endpoint].  An HTTPException of the service
    is raised again as it is; the service raises nothing else. *)
Definition _handle_frequency_curve_endpoint {K : Numerics} (env : Environment)
    (analysis_service : DataService) (distribution_name agg_func method : string)
  : Response :=
  match _validate_frequency_curve_params agg_func method with
  | Some detail => Rejected 400 detail
  | None =>
      if negb (existsb (String.eqb distribution_name) valid_models)
      then Rejected 400 UnsupportedModel
      else FromService
             (compute_frequency_curve env analysis_service distribution_name agg_func method)
  end.

(** The nine endpoints [/analysis/frequency_curve_<model>], by the name
    each one passes to the handler. *)
Definition frequency_curve_endpoints : list (string * string) :=
  [ ("frequency_curve_gumbel", "gumbel"); ("frequency_curve_lognorm", "lognorm");
    ("frequency_curve_gamma", "gamma"); ("frequency_curve_logistic", "logistic");
    ("frequency_curve_exponential", "expon"); ("frequency_curve_gpd", "genpareto");
    ("frequency_curve_frechet", "frechet"); ("frequency_curve_pearson3", "pearson3");
    ("frequency_curve_genextreme", "genextreme") ].

(** *** The four tables of names agree *)

Ltac by_name distribution_name :=
  repeat match goal with
  | |- context [String.eqb distribution_name ?s] =>
      destruct (String.eqb_spec distribution_name s) as [->|?]; [vm_compute; auto|]
  end.

(** X17.  The registry of the service, the table of the bootstrap worker and the
    allow-list of the router hold the same nine names, and the worker maps
    each name to the SciPy distribution the registry fits; the names for
    which a confidence band is allowed are these but "genextreme". *)
Theorem name_tables_agree (distribution_name : string) :
  dist_map distribution_name = option_map dist (distributions distribution_name)
  /\ existsb (String.eqb distribution_name) valid_models
     = match distributions distribution_name with Some _ => true | None => false end
  /\ existsb (String.eqb distribution_name) fast_distributions
     = match distributions distribution_name with
       | Some _ => negb (distribution_name =? "genextreme")
       | None => false
       end.
Proof.
  unfold dist_map, distributions, distributions_table, valid_models, fast_distributions.
  cbn [dict_get existsb].
  by_name distribution_name. auto.
Qed.

Lemma valid_models_registered (distribution_name : string) :
  existsb (String.eqb distribution_name) valid_models = true
  <-> distributions distribution_name <> None.
Proof.
  unfold distributions, distributions_table, valid_models.
  cbn [dict_get existsb].
  by_name distribution_name; try (split; [discriminate | reflexivity]).
  split; [discriminate | congruence].
Qed.

Lemma valid_agg_funcs_validate (agg_func : string) :
  existsb (String.eqb agg_func) valid_agg_funcs = validate_agg_func agg_func.
Proof.
  unfold valid_agg_funcs, validate_agg_func. cbn [existsb].
  by_name agg_func. reflexivity.
Qed.

(** X18.  The checks of the router never change the answer's status: a request
    the handler rejects would have been rejected by the service as well,
    with status 400; a request that passes them is answered by the service,
    whose own three checks on the names then cannot fail. *)
Theorem router_checks_redundant {K : Numerics} (env : Environment)
    (analysis_service : DataService) (distribution_name agg_func method : string) :
  match _handle_frequency_curve_endpoint env analysis_service
          distribution_name agg_func method with
  | Rejected status_code _ =>
      status_code = 400
      /\ exists detail,
           compute_frequency_curve env analysis_service distribution_name agg_func method
           = HTTPException 400 detail
  | FromService o =>
      o = compute_frequency_curve env analysis_service distribution_name agg_func method
      /\ validate_agg_func agg_func = true
      /\ distributions distribution_name <> None
      /\ existsb (String.eqb method) valid_methods = true
  end.
Proof.
  unfold _handle_frequency_curve_endpoint, _validate_frequency_curve_params.
  rewrite valid_agg_funcs_validate. fold valid_methods.
  unfold compute_frequency_curve, prepare_series. fold valid_methods.
  destruct (validate_agg_func agg_func); cbn [negb]; [|split; eauto].
  destruct (existsb (String.eqb method) valid_methods) eqn:Em; cbn [negb].
  - destruct (existsb (String.eqb distribution_name) valid_models) eqn:Ev; cbn [negb].
    + apply valid_models_registered in Ev. repeat split; auto.
    + assert (E : distributions distribution_name = None).
      { destruct (distributions distribution_name) eqn:E; [|reflexivity].
        assert (H : existsb (String.eqb distribution_name) valid_models = true)
          by (apply valid_models_registered; congruence).
        congruence. }
      rewrite E. split; eauto.
  - split; [reflexivity|]. destruct (distributions distribution_name); eauto.
Qed.

(** Each of the nine fixed endpoints passes a registered name, so its
    model check never fails. *)
Lemma endpoints_registered :
  Forall (fun e => distributions (snd e) <> None) frequency_curve_endpoints.
Proof. repeat constructor; discriminate. Qed.

(** ** The upload path (services/data_service.py)

    [DataService] builds the frame the engine works on.  A frame is a
    header and rows of cells aligned with it; column names are distinct, as
    pandas makes them on reading.  A cell is a number, a text or a missing
    value of an object column; a missing number is [NaN]. *)

Inductive cell : Type :=
| CInt (z : Z)
| CNum (x : float)
| CStr (s : string)
| CNone.

Record Table : Type := {
  header : list string;
  body : list (list cell)
}.

(** *** [convert_month] *)

Definition is_digit (c : Ascii.ascii) : bool :=
  let n := Ascii.nat_of_ascii c in (48 <=? n)%nat && (n <=? 57)%nat.

Definition digit_value (c : Ascii.ascii) : Z := Z.of_nat (Ascii.nat_of_ascii c) - 48.

(** The digits a text starts with. *)
Fixpoint leading_digits (s : string) : string :=
  match s with
  | String c s' => if is_digit c then String c (leading_digits s') else ""
  | EmptyString => ""
  end.

(** [re.findall(r'\d+', s)[0]]: the first maximal run of digits. *)
Fixpoint first_digits (s : string) : option string :=
  match s with
  | EmptyString => None
  | String c s' => if is_digit c then Some (leading_digits s) else first_digits s'
  end.

(** [int(digits)] for a text of digits. *)
Fixpoint int_of_digits (acc : Z) (s : string) : Z :=
  match s with
  | EmptyString => acc
  | String c s' => int_of_digits (10 * acc + digit_value c) s'
  end.

(** [int(x)] for a float: towards zero; NaN and the infinities raise. *)
Definition int_of_float (x : float) : option Z :=
  match x with
  | Fin q => Some (Z.quot (Qnum q) (Z.pos (Qden q)))
  | _ => None
  end.

(** [convert_month]: [None] also stands for the exception the method
    swallows. *)
Definition convert_month (month_value : cell) : option Z :=
  match month_value with
  | CStr s => option_map (int_of_digits 0) (first_digits s)
  | CInt z => Some z
  | CNum x => int_of_float x
  | CNone => None
  end.

(** *** [detect_main_data_column] *)

Definition has_column (df : Table) (col : string) : bool :=
  existsb (String.eqb col) (header df).

(** Position of a column in the header. *)
Fixpoint column_index (col : string) (names : list string) : option nat :=
  match names with
  | [] => None
  | c :: names' =>
      if String.eqb col c then Some O else option_map S (column_index col names')
  end.





(** *** [process_data] *)

Inductive UploadError : Type :=
| YearMissing       (* ValueError: the frame must hold a Year column *)
| KeyError          (* a column that is not in the frame *)
| TypeError         (* an ordering comparison on a text or on None *)
| EmptyAfterProcessing.   (* HTTPException(400) *)

Inductive Processed (A : Type) : Type :=
| Failed (e : UploadError)
| Done (a : A).
Arguments Failed {A} e.
Arguments Done {A} a.

(** [cell > 0]; [None] is the TypeError of an object column. *)
Definition positive_cell (c : cell) : option bool :=
  match c with
  | CInt z => Some (0 <? z)%Z
  | CNum x => Some (x >? Fin 0)%F
  | _ => None
  end.

(** A Month cell after [apply(self.convert_month)]. *)
Definition month_cell (c : cell) : cell :=
  match convert_month c with
  | Some m => CInt m
  | None => CNone
  end.

Fixpoint set_nth {A : Type} (j : nat) (x : A) (l : list A) : list A :=
  match l, j with
  | [], _ => []
  | _ :: l', O => x :: l'
  | y :: l', S j' => y :: set_nth j' x l'
  end.

(** The twelve rows made from one yearly row, as the dictionary
    [{"Year": year, "Month": m, main_column: yearly_value}] orders them. *)
Definition monthly_header (main_column : string) : list string :=
  if String.eqb main_column "Year" || String.eqb main_column "Month"
  then ["Year"; "Month"] else ["Year"; "Month"; main_column].

Definition monthly_row (main_column : string) (year yearly_value : cell) (m : Z)
  : list cell :=
  if String.eqb main_column "Year" then [yearly_value; CInt m]
  else if String.eqb main_column "Month" then [year; yearly_value]
  else [year; CInt m; yearly_value].

Definition months : list Z := map Z.of_nat (seq 1 12).

(** The frame before the filter on the main column. *)
Definition with_months (df : Table) (main_column : string) : Processed Table :=
  if has_column df "Month" then
    match column_index "Month" (header df) with
    | None => Failed KeyError
    | Some j =>
        let converted := map (fun row => set_nth j (month_cell (nth j row CNone)) row) (body df) in
        Done {| header := header df;
                body := filter (fun row => match nth j row CNone with
                                           | CNone => false
                                           | _ => true
                                           end) converted |}
    end
  else if negb (has_column df "Year") then Failed YearMissing
  else
    match body df with
    | [] => Done {| header := []; body := [] |}            (* pd.DataFrame([]) *)
    | _ =>
        match column_index "Year" (header df), column_index main_column (header df) with
        | Some i, Some j =>
            Done {| header := monthly_header main_column;
                    body := flat_map (fun row =>
                              map (monthly_row main_column (nth i row CNone) (nth j row CNone))
                                  months) (body df) |}
        | _, _ => Failed KeyError
        end
    end.

(** [df[df[main_column] > 0]] and the emptiness check. *)
Definition keep_positive (df : Table) (main_column : string) : Processed Table :=
  match column_index main_column (header df) with
  | None => Failed KeyError
  | Some j =>
      match option_map_all (fun row => positive_cell (nth j row CNone)) (body df) with
      | None => Failed TypeError
      | Some mask =>
          match mask_select (body df) mask with
          | [] => Failed EmptyAfterProcessing
          | rows => Done {| header := header df; body := rows |}
          end
      end
  end.

Definition process_data (df : Table) (main_column : string) : Processed Table :=
  match with_months df main_column with
  | Failed e => Failed e
  | Done df' => keep_positive df' main_column
  end.

(** *** Properties of [convert_month] *)










Example convert_month_examples :
  convert_month (CStr "Month 12") = Some 12
  /\ convert_month (CStr "-3") = Some 3
  /\ convert_month (CStr "2020-07-15") = Some 2020
  /\ convert_month (CStr "Jan") = None
  /\ convert_month (CNum (Fin 7.9)) = Some 7
  /\ convert_month (CNum (Fin (-7.9))) = Some (-7)
  /\ convert_month (CNum NaN) = None.
Proof. repeat split; reflexivity. Qed.

(** *** Properties of [detect_main_data_column] *)





(** *** Properties of [process_data] *)














(** An upload without rows and without a Month column is not reported as
    empty data: the frame rebuilt from no rows has no column, and reading
    the main column fails. *)
Lemma process_data_without_rows (names : list string) (main_column : string) :
  existsb (String.eqb "Month") names = false ->
  existsb (String.eqb "Year") names = true ->
  process_data {| header := names; body := [] |} main_column = Failed KeyError.
Proof.
  intros Hm Hy. unfold process_data, with_months, has_column. cbn [header body].
  rewrite Hm, Hy. reflexivity.
Qed.

(** ** [compute_qq_pp]

    The QQ and PP points of a fitted distribution.  [dist.cdf] is one more
    operation of SciPy; the properties below hold whatever it returns. *)

Module QQPoint.
Record t : Type := {
  p_empirical : pyval;
  sample : pyval;
  theoretical : pyval
}.
End QQPoint.

Module PPPoint.
Record t : Type := {
  empirical : pyval;
  theoretical : pyval
}.
End PPPoint.

Inductive QQDetail : Type :=
| Engine (detail : ErrorDetail)   (* a detail shared with compute_frequency_curve *)
| DataNotLoaded                   (* 404: no data, or an empty frame *)
| NoUsablePoint.                  (* 400: every point was skipped *)

Inductive QQOutcome : Type :=
| QQError (status_code : Z) (detail : QQDetail)
| QQResult (qq : list QQPoint.t) (pp : list PPPoint.t).

Section QQPP.

Context {K : Numerics}.

(** [dist.cdf(x, *params)] *)
Variable scipy_cdf : scipy_dist -> list float -> float -> float.

(** [(i + 1) / (n + 1)] *)
Definition empirical_probability (n i : nat) : float :=
  (of_nat (i + 1) / of_nat (n + 1))%F.

(** The two [continue] tests of the loop at index [i]. *)
Definition usable (d : DistributionBase) (params : list pyval) (n : nat)
    (ix : nat * float) : bool :=
  isfinite (scipy_ppf (dist d) (map to_float params) (empirical_probability n (fst ix)))
  && isfinite (scipy_cdf (dist d) (map to_float params) (snd ix)).

Definition qq_point (d : DistributionBase) (params : list pyval) (n : nat)
    (ix : nat * float) : QQPoint.t :=
  let p := empirical_probability n (fst ix) in
  {| QQPoint.p_empirical := _convert_to_python_type (PyFloat p);
     QQPoint.sample := _convert_to_python_type (NpFloat (snd ix));
     QQPoint.theoretical :=
       _convert_to_python_type (NpFloat (scipy_ppf (dist d) (map to_float params) p)) |}.

Definition pp_point (d : DistributionBase) (params : list pyval) (n : nat)
    (ix : nat * float) : PPPoint.t :=
  {| PPPoint.empirical :=
       _convert_to_python_type (PyFloat (empirical_probability n (fst ix)));
     PPPoint.theoretical :=
       _convert_to_python_type
         (NpFloat (scipy_cdf (dist d) (map to_float params) (snd ix))) |}.

Definition compute_qq_pp (svc : DataService) (distribution_name agg_func : string)
  : QQOutcome :=
  if negb (validate_agg_func agg_func)
  then QQError 400 (Engine InvalidAggregationFunction)
  else
    match distributions distribution_name with
    | None => QQError 400 (Engine UnsupportedDistribution)
    | Some d =>
        match data svc with
        | None => QQError 404 DataNotLoaded
        | Some df =>
            match rows df with
            | [] => QQError 404 DataNotLoaded
            | _ =>
                if negb (existsb (String.eqb (main_column svc)) (columns df))
                then QQError 400 (Engine MissingColumn)
                else
                  let aggregated := groupby_agg agg_func (rows df) in
                  match filter isfinite aggregated with
                  | [] => QQResult [] []
                  | _ =>
                      let Qmax_filtered := valid_values aggregated in
                      match Qmax_filtered with
                      | [] => QQError 400 (Engine EmptyAfterFiltering)
                      | _ =>
                          if (length Qmax_filtered <? 3)%nat
                          then QQError 400 (Engine (InsufficientData (length Qmax_filtered)))
                          else
                            match option_bind (scipy_fit (dist d) Qmax_filtered)
                                              validate_params with
                            | None => QQError 400 (Engine DegenerateFit)
                            | Some params =>
                                let sorted_Q := np_sort Qmax_filtered in
                                let n := length sorted_Q in
                                let kept := filter (usable d params n)
                                                   (combine (seq 0 n) sorted_Q) in
                                match kept with
                                | [] => QQError 400 NoUsablePoint
                                | _ => QQResult (map (qq_point d params n) kept)
                                                (map (pp_point d params n) kept)
                                end
                            end
                      end
                  end
            end
        end
    end.

End QQPP.

(** *** Properties *)









(** A stand-in for [dist.cdf]: the position of [x] in the range of the
    fitted location and scale, NaN outside. *)
Definition demo_cdf (d : scipy_dist) (params : list float) (x : float) : float :=
  match params with
  | [location; spread] =>
      let u := ((x - location) / (spread * Fin 4) + Fin 0.5)%F in
      if (u <? Fin 0)%F || (Fin 1 <? u)%F then NaN else u
  | _ => NaN
  end.

Definition scenario_1_qq : list QQPoint.t :=
  Eval vm_compute in
    match compute_qq_pp demo_cdf (service scenario_1) "gumbel" "max" with
    | QQResult qq _ => qq
    | QQError _ _ => []
    end.




(** Of the five values of scenario 1, the largest has no cdf under the
    stand-in and is left out. *)
Example scenario_1_qq_size :
  length scenario_1_qq = 4%nat /\ length scenario_1 = 5%nat.
Proof. split; reflexivity. Qed.
